(** * AFSIM MCP: scenario model, managers and run controller

    A shallow embedding of [afsim_mcp/models.py], [scenario_manager.py],
    [entity_manager.py] and [simulation_controller.py], with the properties
    the specification states about them.

    Conventions of the embedding.
    - A Python [dict] with string keys whose order matters (parameter bags,
      decoded JSON objects) is an association list in insertion order; the
      two registries, which are only read by key, are [gmap]s.
    - Python numbers are [pynum]: an [int] or a binary64 [float].
    - A call that may raise returns a [result]; every modelled raise happens
      before the first mutation of the call, so a raise leaves the state as
      it was.
    - What the operating system answers (fresh identifiers, the clock, the
      outcome of spawning and signalling a process) is an explicit input of
      the operation that asks for it.
    - The file system is a finite map from path strings to file contents
      and a set of directories; creating a directory and writing a file
      always succeed. A file written through [json.dumps] is kept as the
      tree it encodes, [json.loads] being the inverse of [json.dumps] on
      these trees. *)

From Stdlib Require Import ZArith String Ascii List Bool Lia.
From Stdlib Require Import PrimFloat SpecFloat FloatOps.
From stdpp Require Import base option list strings pretty gmap.
Import ListNotations.

Set Warnings "-register-all".

Local Open Scope string_scope.

(** ** Python values *)

Module Py.

(** The exceptions the modelled code raises. [IllTyped] is not a Python
    exception: it marks a decoded document whose field holds a value of
    another type than the dataclass declares (Python would store it
    unchecked); such documents are outside the model. *)
Inductive exn : Type :=
| KeyError (msg : string)
| ValueError (msg : string)
| FileNotFoundError (msg : string)
| JSONDecodeError
| AttributeError
| TypeError
| OSError (msg : string)
| IllTyped (field : string).

Inductive result (A : Type) : Type :=
| Ok (a : A)
| Raise (e : exn).
Arguments Ok {A} a.
Arguments Raise {A} e.

Definition bind {A B} (r : result A) (k : A -> result B) : result B :=
  match r with
  | Ok a => k a
  | Raise e => Raise e
  end.

(** [int] or [float]. *)
Inductive pynum : Type :=
| PInt (z : Z)
| PFloat (f : float).

(** Exact comparison of a float with an integer, as CPython does it;
    [None] when the float is a NaN. *)
Definition float_cmp_Z (f : float) (z : Z) : option comparison :=
  match Prim2SF f with
  | S754_nan => None
  | S754_zero _ => Some (0 ?= z)%Z
  | S754_infinity s => Some (if s then Lt else Gt)
  | S754_finite s m e =>
      let v := if s then Z.neg m else Z.pos m in
      if (0 <=? e)%Z then Some (v * 2 ^ e ?= z)%Z
      else Some (v ?= z * 2 ^ (- e))%Z
  end.

(** [a <= 0]. *)
Definition num_le0 (a : pynum) : bool :=
  match a with
  | PInt z => (z <=? 0)%Z
  | PFloat f => PrimFloat.leb f PrimFloat.zero
  end.

(** [a > b]. *)
Definition num_gt (a b : pynum) : bool :=
  match a, b with
  | PInt x, PInt y => (y <? x)%Z
  | PFloat x, PFloat y => PrimFloat.ltb y x
  | PFloat x, PInt y =>
      match float_cmp_Z x y with Some Gt => true | _ => false end
  | PInt x, PFloat y =>
      match float_cmp_Z y x with Some Lt => true | _ => false end
  end.

(** The values [json.loads] produces and [json.dumps] accepts; the type of
    the entries of a parameter bag ([dict[str, Any]]). *)
Inductive json : Type :=
| JNull
| JBool (b : bool)
| JNum (n : pynum)
| JStr (s : string)
| JArr (l : list json)
| JObj (kvs : list (string * json)).

Abbreviation pydict := (list (string * json)).

(** [d.get(k)]: the binding of [k], if any. *)
Fixpoint dict_get (k : string) (d : pydict) : option json :=
  match d with
  | [] => None
  | (k', v) :: d' => if String.eqb k k' then Some v else dict_get k d'
  end.

(** [p or {}] for an optional dict argument. *)
Definition dict_or_empty (p : option pydict) : pydict :=
  match p with
  | Some d => d
  | None => []
  end.

(** [s or dflt] for an optional string argument: [None] and [""] are
    both falsy. *)
Definition str_or (s : option string) (dflt : string) : string :=
  match s with
  | Some EmptyString | None => dflt
  | Some s' => s'
  end.

(** What the embedding takes from the Python runtime and [pathlib] rather
    than from this repository: how a value prints inside an f-string, and
    how paths are normalised and joined, and how foreign text parses as
    JSON. *)
Class Builtins : Type := {
  (** [str(v)], as [f"{v}"] inserts it. *)
  format_value : json -> string;
  (** [str(Path(p))]. *)
  path_str : string -> string;
  path_str_idem : forall p, path_str (path_str p) = path_str p;
  (** [str(Path(d) / name)]. *)
  path_join : string -> string -> string;
  (** [str(Path(p).parent)]. *)
  path_parent : string -> string;
  (** [str(q)] for every [q] of [Path(p).parents]. *)
  path_ancestors : string -> list string;
  (** [json.loads(text)] on a text that [json.dumps] did not write;
      [None] when it raises [JSONDecodeError]. *)
  json_loads : string -> option json
}.

(** ["\n".join(lines)]. *)
Definition nl : string := String (ascii_of_nat 10) EmptyString.

Fixpoint join (sep : string) (l : list string) : string :=
  match l with
  | [] => ""
  | [x] => x
  | x :: l' => x ++ sep ++ join sep l'
  end.

(** [s.split(sep, 1)] for a one-character separator: at most one split,
    at the first occurrence. *)
Fixpoint split_once (sep : ascii) (s : string) : list string :=
  match s with
  | EmptyString => [EmptyString]
  | String c s' =>
      if Ascii.eqb c sep then [EmptyString; s']
      else match split_once sep s' with
           | hd :: tl => String c hd :: tl
           | [] => [String c EmptyString]
           end
  end.

(** [l[-1]] on a non-empty list. *)
Definition last_item (l : list string) : string := List.last l EmptyString.

(** [d[k] = v]: the value of an existing key is replaced in place, a new
    key goes to the end. *)
Fixpoint dict_set (k : string) (v : json) (d : pydict) : pydict :=
  match d with
  | [] => [ (k, v) ]
  | (k', v') :: d' =>
      if String.eqb k k' then (k, v) :: d' else (k', v') :: dict_set k v d'
  end.

(** [d.update(u)]. *)
Definition dict_update (d u : pydict) : pydict :=
  fold_left (fun acc kv => dict_set (fst kv) (snd kv) acc) u d.

(** [l[:n]] for an integer [n]: a negative [n] counts from the end. *)
Definition slice_to {A} (n : Z) (l : list A) : list A :=
  if (0 <=? n)%Z then take (Z.to_nat n) l
  else take (length l - Z.to_nat (- n)) l.

(** [sub in s] on strings. *)
Fixpoint starts_with (sub s : string) : bool :=
  match sub, s with
  | EmptyString, _ => true
  | String a sub', String b s' => Ascii.eqb a b && starts_with sub' s'
  | String _ _, EmptyString => false
  end.

Fixpoint contains (sub s : string) : bool :=
  starts_with sub s
  || match s with
     | EmptyString => false
     | String _ s' => contains sub s'
     end.

(** More of the Python runtime, for the code that reads text: the stem of
    a path, the text [json.dumps(v, indent=2)] writes, [str.lower] and
    [str.splitlines]. *)
Class TextBuiltins : Type := {
  path_stem : string -> string;
  json_dumps : json -> string;
  str_lower : string -> string;
  splitlines : string -> list string
}.

(** [s[-n:]] for a positive [n]: the last [n] characters, all of [s] when it
    is shorter. *)
Definition last_chars (n : nat) (s : string) : string :=
  string_of_list_ascii
    (drop (String.length s - n) (list_ascii_of_string s)).

End Py.

(** ** models.py *)

Module SimulationStatus.

Inductive t : Type := IDLE | RUNNING | PAUSED | COMPLETED | FAILED | STOPPED.

#[global] Instance eq_dec : EqDecision t.
Proof. solve_decision. Defined.

(** The terminal states of the run life cycle. *)
Definition terminal (s : t) : bool :=
  match s with
  | COMPLETED | FAILED | STOPPED => true
  | IDLE | RUNNING | PAUSED => false
  end.

End SimulationStatus.

Module Position.

Record t : Type := mk {
  latitude : Py.pynum;
  longitude : Py.pynum;
  altitude_m : Py.pynum
}.

Definition default : t :=
  mk (Py.PFloat PrimFloat.zero) (Py.PFloat PrimFloat.zero) (Py.PFloat PrimFloat.zero).

Definition to_afsim {B : Py.Builtins} (p : t) : string :=
  Py.format_value (Py.JNum (latitude p)) ++ "deg "
  ++ Py.format_value (Py.JNum (longitude p)) ++ "deg "
  ++ Py.format_value (Py.JNum (altitude_m p)) ++ "m".

End Position.

Module Component.

(** [component_type] is a string or a member of one of the [str]-valued
    enumerations, which [to_afsim_block] reads through [.value]; either way
    it is the string kept here. *)
Record t : Type := mk {
  name : string;
  component_type : string;
  parameters : Py.pydict
}.

(** The lines of the block, before they are joined. *)
Definition block_lines {B : Py.Builtins} (c : t) : list string :=
  let comp_type := component_type c in
  [ "  " ++ comp_type ++ " " ++ name c ]
  ++ map (fun kv => "    " ++ fst kv ++ " " ++ Py.format_value (snd kv))
         (parameters c)
  ++ [ "  end_" ++ Py.last_item (Py.split_once "_" comp_type) ].

Definition to_afsim_block {B : Py.Builtins} (c : t) : string :=
  Py.join Py.nl (block_lines c).

End Component.

Module Platform.

Record t : Type := mk {
  name : string;
  platform_type : string;
  position : Position.t;
  components : list Component.t;
  parameters : Py.pydict
}.

Definition with_components (cs : list Component.t) (p : t) : t :=
  mk (name p) (platform_type p) (position p) cs (parameters p).

Definition block_lines {B : Py.Builtins} (p : t) : list string :=
  [ "platform " ++ name p;
    "  platform_type " ++ platform_type p;
    "  position " ++ Position.to_afsim (position p) ]
  ++ map (fun kv => "  " ++ fst kv ++ " " ++ Py.format_value (snd kv))
         (parameters p)
  ++ map Component.to_afsim_block (components p)
  ++ [ "end_platform" ].

Definition to_afsim_block {B : Py.Builtins} (p : t) : string :=
  Py.join Py.nl (block_lines p).

End Platform.

Module Scenario.

Record t : Type := mk {
  name : string;
  scenario_id : string;
  description : string;
  duration_s : Py.pynum;
  time_step_s : Py.pynum;
  platforms : list Platform.t;
  parameters : Py.pydict;
  file_path : option string
}.

Definition with_platforms (ps : list Platform.t) (s : t) : t :=
  mk (name s) (scenario_id s) (description s) (duration_s s) (time_step_s s)
     ps (parameters s) (file_path s).

Definition with_file_path (fp : option string) (s : t) : t :=
  mk (name s) (scenario_id s) (description s) (duration_s s) (time_step_s s)
     (platforms s) (parameters s) fp.

Definition to_afsim {B : Py.Builtins} (s : t) : string :=
  Py.join Py.nl
    ([ "# Scenario: " ++ name s;
       "# " ++ description s;
       "";
       "simulation_duration " ++ Py.format_value (Py.JNum (duration_s s)) ++ "s";
       "time_step " ++ Py.format_value (Py.JNum (time_step_s s)) ++ "s";
       "" ]
     ++ map (fun kv => fst kv ++ " " ++ Py.format_value (snd kv)) (parameters s)
     ++ (match parameters s with [] => [] | _ :: _ => [ "" ] end)
     ++ flat_map (fun p => [ Platform.to_afsim_block p; "" ]) (platforms s)).

End Scenario.

Module SimulationRun.

Record t : Type := mk {
  run_id : string;
  scenario_name : string;
  scenario_file : string;
  status : SimulationStatus.t;
  start_time : option string;
  end_time : option string;
  pid : option Z;
  output_dir : string;
  log_file : string;
  error_message : string;
  result_files : list string
}.

(** Assignments to the fields the controller mutates. *)
Definition set_status (v : SimulationStatus.t) (r : t) : t :=
  mk (run_id r) (scenario_name r) (scenario_file r) v (start_time r) (end_time r)
     (pid r) (output_dir r) (log_file r) (error_message r) (result_files r).

Definition set_start_time (v : option string) (r : t) : t :=
  mk (run_id r) (scenario_name r) (scenario_file r) (status r) v (end_time r)
     (pid r) (output_dir r) (log_file r) (error_message r) (result_files r).

Definition set_end_time (v : option string) (r : t) : t :=
  mk (run_id r) (scenario_name r) (scenario_file r) (status r) (start_time r) v
     (pid r) (output_dir r) (log_file r) (error_message r) (result_files r).

Definition set_pid (v : option Z) (r : t) : t :=
  mk (run_id r) (scenario_name r) (scenario_file r) (status r) (start_time r)
     (end_time r) v (output_dir r) (log_file r) (error_message r) (result_files r).

Definition set_log_file (v : string) (r : t) : t :=
  mk (run_id r) (scenario_name r) (scenario_file r) (status r) (start_time r)
     (end_time r) (pid r) (output_dir r) v (error_message r) (result_files r).

Definition set_error_message (v : string) (r : t) : t :=
  mk (run_id r) (scenario_name r) (scenario_file r) (status r) (start_time r)
     (end_time r) (pid r) (output_dir r) (log_file r) v (result_files r).

End SimulationRun.

(** ** The operating system, as far as the code reads and writes it *)

Module OS.

Inductive file : Type :=
| Text (content : string)
| Json (document : Py.json).

(** One [subprocess.Popen] call that succeeded. *)
Record launch : Type := mk_launch {
  cmd : list string;
  cwd : string;
  stdout_file : string
}.

Record world : Type := mk {
  files : gmap string file;
  dirs : gset string;
  spawned : list launch
}.

Definition with_files (fs : gmap string file) (w : world) : world :=
  mk fs (dirs w) (spawned w).

(** [Path(p).exists()]. *)
Definition exists_ {B : Py.Builtins} (w : world) (p : string) : bool :=
  bool_decide (is_Some (files w !! Py.path_str p))
  || bool_decide (Py.path_str p ∈ dirs w).

(** [Path(p).mkdir(parents=True, exist_ok=True)]. *)
Definition mkdir_p {B : Py.Builtins} (p : string) (w : world) : world :=
  mk (files w)
     (dirs w ∪ {[ Py.path_str p ]} ∪ list_to_set (Py.path_ancestors p))
     (spawned w).

(** [Path(p).write_text(...)]. *)
Definition write {B : Py.Builtins} (p : string) (f : file) (w : world) : world :=
  with_files (<[Py.path_str p := f]> (files w)) w.

(** What [open(log_file, "w")] followed by [subprocess.Popen] does. *)
Inductive spawn_outcome : Type :=
| OpenRaises (msg : string)
| PopenRaises (msg : string)
| Spawned (pid : Z).

(** What [os.kill(pid, sig)] does. *)
Inductive kill_outcome : Type :=
| Delivered
| ProcessLookupError
| KillRaises (e : Py.exn).

End OS.

(** ** scenario_manager.py *)

Module ScenarioManager.

Record t : Type := mk {
  _scenarios_dir : string;
  _active_scenarios : gmap string Scenario.t
}.

Definition with_scenarios (m : gmap string Scenario.t) (sm : t) : t :=
  mk (_scenarios_dir sm) m.

(** [ScenarioManager(scenarios_dir)]. *)
Definition init {B : Py.Builtins} (scenarios_dir : string) (w : OS.world)
  : t * OS.world :=
  (mk scenarios_dir ∅, OS.mkdir_p scenarios_dir w).

Definition _get (sm : t) (scenario_id : string) : Py.result Scenario.t :=
  match _active_scenarios sm !! scenario_id with
  | Some s => Py.Ok s
  | None => Py.Raise (Py.KeyError ("Scenario '" ++ scenario_id ++ "' not found."))
  end.

Definition get_scenario := _get.

(** [new_id] is what [uuid.uuid4()] returns for the new scenario. *)
Definition create_scenario (new_id : string) (sm : t)
    (name description : string) (duration_s time_step_s : Py.pynum)
  : Py.result (Scenario.t * t) :=
  if bool_decide (name = "") then
    Py.Raise (Py.ValueError "Scenario name must not be empty.")
  else
    let scenario :=
      Scenario.mk name new_id description duration_s time_step_s [] [] None in
    Py.Ok (scenario,
           with_scenarios (<[new_id := scenario]> (_active_scenarios sm)) sm).

Definition default_duration_s : Py.pynum := Py.PFloat 3600%float.
Definition default_time_step_s : Py.pynum := Py.PFloat 1%float.
Definition default_platform_type : string := "wsf_platform".

Definition delete_scenario (sm : t) (scenario_id : string) : bool * t :=
  match _active_scenarios sm !! scenario_id with
  | None => (false, sm)
  | Some _ => (true, with_scenarios (delete scenario_id (_active_scenarios sm)) sm)
  end.

(** *** The structured form *)

Definition component_to_dict (c : Component.t) : Py.json :=
  Py.JObj [ ("name", Py.JStr (Component.name c));
            ("component_type", Py.JStr (Component.component_type c));
            ("parameters", Py.JObj (Component.parameters c)) ].

Definition platform_to_dict (p : Platform.t) : Py.json :=
  Py.JObj [ ("name", Py.JStr (Platform.name p));
            ("platform_type", Py.JStr (Platform.platform_type p));
            ("position",
             Py.JObj [ ("latitude", Py.JNum (Position.latitude (Platform.position p)));
                       ("longitude", Py.JNum (Position.longitude (Platform.position p)));
                       ("altitude_m", Py.JNum (Position.altitude_m (Platform.position p))) ]);
            ("parameters", Py.JObj (Platform.parameters p));
            ("components", Py.JArr (map component_to_dict (Platform.components p))) ].

Definition _scenario_to_dict (s : Scenario.t) : Py.json :=
  Py.JObj [ ("scenario_id", Py.JStr (Scenario.scenario_id s));
            ("name", Py.JStr (Scenario.name s));
            ("description", Py.JStr (Scenario.description s));
            ("duration_s", Py.JNum (Scenario.duration_s s));
            ("time_step_s", Py.JNum (Scenario.time_step_s s));
            ("parameters", Py.JObj (Scenario.parameters s));
            ("platforms", Py.JArr (map platform_to_dict (Scenario.platforms s))) ].

(** [v.get(k, dflt)] and [v[k]] on a decoded value [v]. *)
Definition get_or (v : Py.json) (k : string) (dflt : Py.json) : Py.result Py.json :=
  match v with
  | Py.JObj d => Py.Ok (default dflt (Py.dict_get k d))
  | _ => Py.Raise Py.AttributeError
  end.

Definition subscript (v : Py.json) (k : string) : Py.result Py.json :=
  match v with
  | Py.JObj d =>
      match Py.dict_get k d with
      | Some x => Py.Ok x
      | None => Py.Raise (Py.KeyError k)
      end
  | _ => Py.Raise Py.TypeError
  end.

(** [for x in v]: a list yields its items, a dict its keys, a string its
    characters; nothing else is iterable. *)
Definition iterate (v : Py.json) : Py.result (list Py.json) :=
  match v with
  | Py.JArr l => Py.Ok l
  | Py.JObj d => Py.Ok (map (fun kv => Py.JStr (fst kv)) d)
  | Py.JStr s => Py.Ok (map (fun c => Py.JStr (String c EmptyString)) (list_ascii_of_string s))
  | _ => Py.Raise Py.TypeError
  end.

(** The declared type of a field, checked on the decoded value. *)
Definition as_str (field : string) (v : Py.json) : Py.result string :=
  match v with Py.JStr s => Py.Ok s | _ => Py.Raise (Py.IllTyped field) end.

Definition as_num (field : string) (v : Py.json) : Py.result Py.pynum :=
  match v with Py.JNum n => Py.Ok n | _ => Py.Raise (Py.IllTyped field) end.

Definition as_dict (field : string) (v : Py.json) : Py.result Py.pydict :=
  match v with Py.JObj d => Py.Ok d | _ => Py.Raise (Py.IllTyped field) end.

(** [for x in l: ...] with a body that may raise. *)
Fixpoint traverse {A B} (f : A -> Py.result B) (l : list A) : Py.result (list B) :=
  match l with
  | [] => Py.Ok []
  | x :: l' =>
      Py.bind (f x) (fun y =>
      Py.bind (traverse f l') (fun ys => Py.Ok (y :: ys)))
  end.

Definition component_from_dict (cd : Py.json) : Py.result Component.t :=
  Py.bind (subscript cd "name") (fun n =>
  Py.bind (as_str "name" n) (fun name =>
  Py.bind (subscript cd "component_type") (fun k =>
  Py.bind (as_str "component_type" k) (fun kind =>
  Py.bind (get_or cd "parameters" (Py.JObj [])) (fun ps =>
  Py.bind (as_dict "parameters" ps) (fun params =>
  Py.Ok (Component.mk name kind params))))))).

Definition position_from_dict (pos_data : Py.json) : Py.result Position.t :=
  let zero := Py.JNum (Py.PFloat PrimFloat.zero) in
  Py.bind (get_or pos_data "latitude" zero) (fun la =>
  Py.bind (as_num "latitude" la) (fun lat =>
  Py.bind (get_or pos_data "longitude" zero) (fun lo =>
  Py.bind (as_num "longitude" lo) (fun lon =>
  Py.bind (get_or pos_data "altitude_m" zero) (fun al =>
  Py.bind (as_num "altitude_m" al) (fun alt =>
  Py.Ok (Position.mk lat lon alt))))))).

Definition platform_from_dict (pd : Py.json) : Py.result Platform.t :=
  Py.bind (get_or pd "position" (Py.JObj [])) (fun pos_data =>
  Py.bind (position_from_dict pos_data) (fun pos =>
  Py.bind (get_or pd "components" (Py.JArr [])) (fun cds =>
  Py.bind (iterate cds) (fun cdl =>
  Py.bind (traverse component_from_dict cdl) (fun comps =>
  Py.bind (subscript pd "name") (fun n =>
  Py.bind (as_str "name" n) (fun name =>
  Py.bind (get_or pd "platform_type" (Py.JStr default_platform_type)) (fun pt =>
  Py.bind (as_str "platform_type" pt) (fun ptype =>
  Py.bind (get_or pd "parameters" (Py.JObj [])) (fun ps =>
  Py.bind (as_dict "parameters" ps) (fun params =>
  Py.Ok (Platform.mk name ptype pos comps params)))))))))))).

Definition _scenario_from_dict (data : Py.json) : Py.result Scenario.t :=
  Py.bind (get_or data "platforms" (Py.JArr [])) (fun pds =>
  Py.bind (iterate pds) (fun pdl =>
  Py.bind (traverse platform_from_dict pdl) (fun platforms =>
  Py.bind (subscript data "name") (fun n =>
  Py.bind (as_str "name" n) (fun name =>
  Py.bind (get_or data "scenario_id" (Py.JStr "")) (fun i =>
  Py.bind (as_str "scenario_id" i) (fun scenario_id =>
  Py.bind (get_or data "description" (Py.JStr "")) (fun d =>
  Py.bind (as_str "description" d) (fun description =>
  Py.bind (get_or data "duration_s" (Py.JNum default_duration_s)) (fun du =>
  Py.bind (as_num "duration_s" du) (fun duration_s =>
  Py.bind (get_or data "time_step_s" (Py.JNum default_time_step_s)) (fun ts =>
  Py.bind (as_num "time_step_s" ts) (fun time_step_s =>
  Py.bind (get_or data "parameters" (Py.JObj [])) (fun ps =>
  Py.bind (as_dict "parameters" ps) (fun parameters =>
  Py.Ok (Scenario.mk name scenario_id description duration_s time_step_s
           platforms parameters None)))))))))))))))).

(** *** Load and save *)

Definition load_scenario_json {B : Py.Builtins} (sm : t) (w : OS.world)
    (file_path : string) : Py.result (Scenario.t * t) :=
  if negb (OS.exists_ w file_path) then
    Py.Raise (Py.FileNotFoundError ("Scenario JSON file not found: " ++ file_path))
  else
    Py.bind (match OS.files w !! Py.path_str file_path with
             | Some (OS.Json data) => Py.Ok data
             | Some (OS.Text text) =>
                 match Py.json_loads text with
                 | Some data => Py.Ok data
                 | None => Py.Raise Py.JSONDecodeError
                 end
             | None => Py.Raise (Py.OSError "Is a directory")
             end) (fun data =>
    Py.bind (_scenario_from_dict data) (fun loaded =>
    let scenario := Scenario.with_file_path (Some (Py.path_str file_path)) loaded in
    Py.Ok (scenario,
           with_scenarios
             (<[Scenario.scenario_id scenario := scenario]> (_active_scenarios sm))
             sm))).

(** The path a save writes to when the caller gives none. *)
Definition default_path {B : Py.Builtins} (sm : t) (s : Scenario.t) (ext : string)
  : string :=
  Py.path_join (_scenarios_dir sm) (Scenario.name s ++ ext).

Definition save_scenario {B : Py.Builtins} (sm : t) (w : OS.world)
    (scenario_id : string) (file_path : option string)
  : Py.result (string * t * OS.world) :=
  Py.bind (_get sm scenario_id) (fun scenario =>
  let file_path := default (default_path sm scenario ".afsim") file_path in
  let w' :=
    OS.write file_path (OS.Text (Scenario.to_afsim scenario))
      (OS.mkdir_p (Py.path_parent file_path) w) in
  let scenario' := Scenario.with_file_path (Some (Py.path_str file_path)) scenario in
  Py.Ok (Py.path_str file_path,
         with_scenarios (<[scenario_id := scenario']> (_active_scenarios sm)) sm,
         w')).

Definition save_scenario_json {B : Py.Builtins} (sm : t) (w : OS.world)
    (scenario_id : string) (file_path : option string)
  : Py.result (string * OS.world) :=
  Py.bind (_get sm scenario_id) (fun scenario =>
  let file_path := default (default_path sm scenario ".json") file_path in
  Py.Ok (Py.path_str file_path,
         OS.write file_path (OS.Json (_scenario_to_dict scenario))
           (OS.mkdir_p (Py.path_parent file_path) w))).

(** *** Validation *)

Record report : Type := mk_report {
  valid : bool;
  errors : list string;
  warnings : list string
}.

Definition E_NAME : string := "Scenario name is empty.".
Definition E_DURATION {B : Py.Builtins} (d : Py.pynum) : string :=
  "Simulation duration must be positive (got " ++ Py.format_value (Py.JNum d) ++ ").".
Definition E_TIME_STEP {B : Py.Builtins} (ts : Py.pynum) : string :=
  "Time step must be positive (got " ++ Py.format_value (Py.JNum ts) ++ ").".
Definition E_DUPLICATE : string := "Duplicate platform names found.".
Definition W_TIME_STEP : string := "Time step is larger than duration.".
Definition W_NO_PLATFORMS : string := "Scenario has no platforms.".

(** [len(platform_names) != len(set(platform_names))]. *)
Definition has_duplicates (names : list string) : bool :=
  negb (length names =? size (list_to_set names : gset string))%nat.

(** The checks, on the scenario itself. *)
Definition validate {B : Py.Builtins} (scenario : Scenario.t) : report :=
  let errors : list string :=
    ((if bool_decide (Scenario.name scenario = "") then [ E_NAME ] else [])
     ++ (if Py.num_le0 (Scenario.duration_s scenario)
         then [ E_DURATION (Scenario.duration_s scenario) ] else [])
     ++ (if Py.num_le0 (Scenario.time_step_s scenario)
         then [ E_TIME_STEP (Scenario.time_step_s scenario) ] else []))%list in
  let warnings : list string :=
    ((if Py.num_gt (Scenario.time_step_s scenario) (Scenario.duration_s scenario)
      then [ W_TIME_STEP ] else [])
     ++ (match Scenario.platforms scenario with
         | [] => [ W_NO_PLATFORMS ]
         | _ :: _ => []
         end))%list in
  let platform_names := map Platform.name (Scenario.platforms scenario) in
  let errors : list string :=
    (errors ++ (if has_duplicates platform_names then [ E_DUPLICATE ] else []))%list in
  mk_report (length errors =? 0)%nat errors warnings.

Definition validate_scenario {B : Py.Builtins} (sm : t) (scenario_id : string)
  : Py.result report :=
  Py.bind (_get sm scenario_id) (fun scenario => Py.Ok (validate scenario)).

(** *** Loading scenario text *)

(** [path.read_text(encoding="utf-8")]. *)
Definition read_text {T : Py.TextBuiltins} (f : OS.file) : string :=
  match f with
  | OS.Text content => content
  | OS.Json document => Py.json_dumps document
  end.


End ScenarioManager.

(** ** entity_manager.py

    The entity manager holds no state of its own: it works on the scenarios
    of the scenario manager it was built with, here an argument. A scenario
    object mutated in place is written back under the key it was read from. *)

Module EntityManager.

Record platform_info : Type := mk_platform_info {
  info_name : string;
  info_platform_type : string;
  info_position : Position.t;
  info_component_count : nat;
  info_parameters : Py.pydict
}.

Definition _platform_info (p : Platform.t) : platform_info :=
  mk_platform_info (Platform.name p) (Platform.platform_type p) (Platform.position p)
    (length (Platform.components p)) (Platform.parameters p).

Record component_info : Type := mk_component_info {
  cinfo_name : string;
  cinfo_component_type : string;
  cinfo_parameters : Py.pydict
}.

Definition _component_info (c : Component.t) : component_info :=
  mk_component_info (Component.name c) (Component.component_type c)
    (Component.parameters c).

(** Write a mutated scenario back. *)
Definition store (sm : ScenarioManager.t) (scenario_id : string) (s : Scenario.t)
  : ScenarioManager.t :=
  ScenarioManager.with_scenarios
    (<[scenario_id := s]> (ScenarioManager._active_scenarios sm)) sm.

Definition _check_unique_platform (scenario : Scenario.t) (name : string)
  : Py.result unit :=
  let names : gset string := list_to_set (map Platform.name (Scenario.platforms scenario)) in
  if bool_decide (name ∈ names) then
    Py.Raise (Py.ValueError ("Platform '" ++ name ++ "' already exists in scenario '"
                             ++ Scenario.name scenario ++ "'."))
  else Py.Ok tt.

Definition create_platform (sm : ScenarioManager.t) (scenario_id name : string)
    (platform_type : string) (latitude longitude altitude_m : Py.pynum)
    (parameters : option Py.pydict)
  : Py.result (platform_info * ScenarioManager.t) :=
  Py.bind (ScenarioManager.get_scenario sm scenario_id) (fun scenario =>
  Py.bind (_check_unique_platform scenario name) (fun _ =>
  let platform :=
    Platform.mk name platform_type (Position.mk latitude longitude altitude_m)
      [] (Py.dict_or_empty parameters) in
  let scenario' :=
    Scenario.with_platforms (Scenario.platforms scenario ++ [ platform ]) scenario in
  Py.Ok (_platform_info platform, store sm scenario_id scenario'))).

Definition delete_platform (sm : ScenarioManager.t) (scenario_id platform_name : string)
  : Py.result (bool * ScenarioManager.t) :=
  Py.bind (ScenarioManager.get_scenario sm scenario_id) (fun scenario =>
  let before := length (Scenario.platforms scenario) in
  let kept :=
    filter (fun p => Platform.name p ≠ platform_name) (Scenario.platforms scenario) in
  let removed := (length kept <? before)%nat in
  Py.Ok (removed, store sm scenario_id (Scenario.with_platforms kept scenario))).

(** [for p in scenario.platforms: if p.name == platform_name: return p]. *)
Fixpoint find_platform (platform_name : string) (ps : list Platform.t)
  : option Platform.t :=
  match ps with
  | [] => None
  | p :: ps' =>
      if bool_decide (Platform.name p = platform_name) then Some p
      else find_platform platform_name ps'
  end.

(** The platform list after the object [find_platform] returns was mutated
    by [f]. *)
Fixpoint update_platform (platform_name : string) (f : Platform.t -> Platform.t)
    (ps : list Platform.t) : list Platform.t :=
  match ps with
  | [] => []
  | p :: ps' =>
      if bool_decide (Platform.name p = platform_name) then f p :: ps'
      else p :: update_platform platform_name f ps'
  end.

Definition _get_platform (sm : ScenarioManager.t) (scenario_id platform_name : string)
  : Py.result Platform.t :=
  Py.bind (ScenarioManager.get_scenario sm scenario_id) (fun scenario =>
  match find_platform platform_name (Scenario.platforms scenario) with
  | Some p => Py.Ok p
  | None =>
      Py.Raise (Py.KeyError ("Platform '" ++ platform_name ++ "' not found in scenario '"
                             ++ scenario_id ++ "'."))
  end).

(** The manager after the platform [_get_platform] found got the
    components [cs]. *)
Definition set_components (sm : ScenarioManager.t) (scenario_id platform_name : string)
    (cs : list Component.t) : ScenarioManager.t :=
  match ScenarioManager._active_scenarios sm !! scenario_id with
  | Some scenario =>
      store sm scenario_id
        (Scenario.with_platforms
           (update_platform platform_name (Platform.with_components cs)
              (Scenario.platforms scenario))
           scenario)
  | None => sm
  end.

Definition MoverType_ROUTE : string := "wsf_route_mover".
Definition SensorType_RADAR : string := "wsf_radar_sensor".
Definition WeaponType_MISSILE : string := "wsf_missile".

Definition add_mover (sm : ScenarioManager.t) (scenario_id platform_name : string)
    (mover_type : string) (mover_name : option string) (parameters : option Py.pydict)
  : Py.result (component_info * ScenarioManager.t) :=
  Py.bind (_get_platform sm scenario_id platform_name) (fun platform =>
  let comp_name := Py.str_or mover_name (platform_name ++ "_mover") in
  let comp := Component.mk comp_name mover_type (Py.dict_or_empty parameters) in
  Py.Ok (_component_info comp,
         set_components sm scenario_id platform_name
           (Platform.components platform ++ [ comp ]))).

Definition add_sensor (sm : ScenarioManager.t) (scenario_id platform_name : string)
    (sensor_type : string) (sensor_name : option string) (parameters : option Py.pydict)
  : Py.result (component_info * ScenarioManager.t) :=
  Py.bind (_get_platform sm scenario_id platform_name) (fun platform =>
  let comp_name := Py.str_or sensor_name (platform_name ++ "_sensor") in
  let comp := Component.mk comp_name sensor_type (Py.dict_or_empty parameters) in
  Py.Ok (_component_info comp,
         set_components sm scenario_id platform_name
           (Platform.components platform ++ [ comp ]))).

Definition add_weapon (sm : ScenarioManager.t) (scenario_id platform_name : string)
    (weapon_type : string) (weapon_name : option string) (parameters : option Py.pydict)
  : Py.result (component_info * ScenarioManager.t) :=
  Py.bind (_get_platform sm scenario_id platform_name) (fun platform =>
  let comp_name := Py.str_or weapon_name (platform_name ++ "_weapon") in
  let comp := Component.mk comp_name weapon_type (Py.dict_or_empty parameters) in
  Py.Ok (_component_info comp,
         set_components sm scenario_id platform_name
           (Platform.components platform ++ [ comp ]))).

Definition remove_component (sm : ScenarioManager.t)
    (scenario_id platform_name component_name : string)
  : Py.result (bool * ScenarioManager.t) :=
  Py.bind (_get_platform sm scenario_id platform_name) (fun platform =>
  let before := length (Platform.components platform) in
  let kept :=
    filter (fun c => Component.name c ≠ component_name) (Platform.components platform) in
  let removed := (length kept <? before)%nat in
  Py.Ok (removed, set_components sm scenario_id platform_name kept)).

Definition list_components (sm : ScenarioManager.t) (scenario_id platform_name : string)
  : Py.result (list component_info) :=
  Py.bind (_get_platform sm scenario_id platform_name) (fun platform =>
  Py.Ok (map _component_info (Platform.components platform))).

(** *** Reading and modifying platforms *)

Definition list_platforms (sm : ScenarioManager.t) (scenario_id : string)
  : Py.result (list platform_info) :=
  Py.bind (ScenarioManager.get_scenario sm scenario_id) (fun scenario =>
  Py.Ok (map _platform_info (Scenario.platforms scenario))).

Definition get_platform (sm : ScenarioManager.t) (scenario_id platform_name : string)
  : Py.result platform_info :=
  Py.bind (_get_platform sm scenario_id platform_name) (fun platform =>
  Py.Ok (_platform_info platform)).

(** The manager after the platform [_get_platform] found became [f] of
    itself. *)
Definition mutate_platform (sm : ScenarioManager.t) (scenario_id platform_name : string)
    (f : Platform.t -> Platform.t) : ScenarioManager.t :=
  match ScenarioManager._active_scenarios sm !! scenario_id with
  | Some scenario =>
      store sm scenario_id
        (Scenario.with_platforms
           (update_platform platform_name f (Scenario.platforms scenario))
           scenario)
  | None => sm
  end.

(** The assignments of [modify_platform], each under its [is not None]. *)
Definition modified (latitude longitude altitude_m : option Py.pynum)
    (platform_type : option string) (parameters : option Py.pydict)
    (p : Platform.t) : Platform.t :=
  Platform.mk (Platform.name p)
    (default (Platform.platform_type p) platform_type)
    (Position.mk
       (default (Position.latitude (Platform.position p)) latitude)
       (default (Position.longitude (Platform.position p)) longitude)
       (default (Position.altitude_m (Platform.position p)) altitude_m))
    (Platform.components p)
    (match parameters with
     | Some u => Py.dict_update (Platform.parameters p) u
     | None => Platform.parameters p
     end).

Definition modify_platform (sm : ScenarioManager.t) (scenario_id platform_name : string)
    (latitude longitude altitude_m : option Py.pynum)
    (platform_type : option string) (parameters : option Py.pydict)
  : Py.result (platform_info * ScenarioManager.t) :=
  Py.bind (_get_platform sm scenario_id platform_name) (fun platform =>
  let change := modified latitude longitude altitude_m platform_type parameters in
  Py.Ok (_platform_info (change platform),
         mutate_platform sm scenario_id platform_name change)).

(** *** Sequences of operations on the scenarios in memory *)

Inductive op : Type :=
| CreateScenario (new_id name description : string) (duration_s time_step_s : Py.pynum)
| DeleteScenario (scenario_id : string)
| CreatePlatform (scenario_id name platform_type : string)
    (latitude longitude altitude_m : Py.pynum) (parameters : option Py.pydict)
| DeletePlatform (scenario_id platform_name : string)
| ModifyPlatform (scenario_id platform_name : string)
    (latitude longitude altitude_m : option Py.pynum)
    (platform_type : option string) (parameters : option Py.pydict)
| AddMover (scenario_id platform_name mover_type : string)
    (mover_name : option string) (parameters : option Py.pydict)
| AddSensor (scenario_id platform_name sensor_type : string)
    (sensor_name : option string) (parameters : option Py.pydict)
| AddWeapon (scenario_id platform_name weapon_type : string)
    (weapon_name : option string) (parameters : option Py.pydict)
| RemoveComponent (scenario_id platform_name component_name : string).

(** The manager a call leaves: its result's when it returns, the one it
    was given when it raises. *)
Definition after {A} (r : Py.result (A * ScenarioManager.t)) (sm : ScenarioManager.t)
  : ScenarioManager.t :=
  match r with
  | Py.Ok (_, sm') => sm'
  | Py.Raise _ => sm
  end.

Definition step (o : op) (sm : ScenarioManager.t) : ScenarioManager.t :=
  match o with
  | CreateScenario new_id name description duration_s time_step_s =>
      after (ScenarioManager.create_scenario new_id sm name description
               duration_s time_step_s) sm
  | DeleteScenario scenario_id => (ScenarioManager.delete_scenario sm scenario_id).2
  | CreatePlatform scenario_id name platform_type latitude longitude altitude_m parameters =>
      after (create_platform sm scenario_id name platform_type latitude longitude
               altitude_m parameters) sm
  | DeletePlatform scenario_id platform_name =>
      after (delete_platform sm scenario_id platform_name) sm
  | ModifyPlatform scenario_id platform_name latitude longitude altitude_m
      platform_type parameters =>
      after (modify_platform sm scenario_id platform_name latitude longitude
               altitude_m platform_type parameters) sm
  | AddMover scenario_id platform_name mover_type mover_name parameters =>
      after (add_mover sm scenario_id platform_name mover_type mover_name parameters) sm
  | AddSensor scenario_id platform_name sensor_type sensor_name parameters =>
      after (add_sensor sm scenario_id platform_name sensor_type sensor_name parameters) sm
  | AddWeapon scenario_id platform_name weapon_type weapon_name parameters =>
      after (add_weapon sm scenario_id platform_name weapon_type weapon_name parameters) sm
  | RemoveComponent scenario_id platform_name component_name =>
      after (remove_component sm scenario_id platform_name component_name) sm
  end.

Definition exec (ops : list op) (sm : ScenarioManager.t) : ScenarioManager.t :=
  fold_left (fun sm o => step o sm) ops sm.

End EntityManager.

(** ** simulation_controller.py *)

Module SimulationController.

Import SimulationStatus.

Record t : Type := mk {
  _sm : ScenarioManager.t;
  _afsim_binary : string;
  _output_dir : string;
  _runs : gmap string SimulationRun.t
}.

(** [SimulationController(scenario_manager, afsim_binary, output_dir)]. *)
Definition init {B : Py.Builtins} (sm : ScenarioManager.t)
    (afsim_binary output_dir : string) (w : OS.world) : t * OS.world :=
  (mk sm afsim_binary output_dir ∅, OS.mkdir_p output_dir w).

Definition set_afsim_binary (binary_path : string) (c : t) : t :=
  mk (_sm c) binary_path (_output_dir c) (_runs c).

Definition get_afsim_binary (c : t) : string := _afsim_binary c.

(** What one call of [run_simulation] asks of its environment: the
    identifier [uuid.uuid4()] gives the run, the two readings of the clock
    and the outcome of starting the process (read only on the path that
    starts one). [spawn] is what [open(log_file, "w")] and
    [subprocess.Popen] do: the first may raise before the file exists, the
    second after it was created; [str(exc)] is the message. *)
Record run_env : Type := mk_run_env {
  new_run_id : string;
  now1 : string;
  now2 : string;
  spawn : OS.spawn_outcome
}.

Definition run_simulation {B : Py.Builtins} (e : run_env) (c : t) (w : OS.world)
    (scenario_id : string) (extra_args : option (list string)) (dry_run : bool)
  : Py.result (SimulationRun.t * t * OS.world) :=
  Py.bind (ScenarioManager.get_scenario (_sm c) scenario_id) (fun scenario =>
  Py.bind (ScenarioManager.save_scenario (_sm c) w scenario_id None) (fun saved =>
  let '(scenario_file, sm', w0) := saved in
  let run :=
    SimulationRun.mk (new_run_id e) (Scenario.name scenario) scenario_file IDLE
      None None None (Py.path_join (_output_dir c) (Scenario.name scenario))
      "" "" [] in
  let w1 := OS.mkdir_p (SimulationRun.output_dir run) w0 in
  (* [self._runs[run.run_id] = run]: the registry holds the object the
     branches below mutate, so it ends up holding the run they return. *)
  let finish (run : SimulationRun.t) (w' : OS.world) :=
    Py.Ok (run,
           mk sm' (_afsim_binary c) (_output_dir c) (<[new_run_id e := run]> (_runs c)),
           w') in
  if dry_run || bool_decide (_afsim_binary c = "") then
    finish
      (SimulationRun.set_end_time (Some (now2 e))
         (SimulationRun.set_start_time (Some (now1 e))
            (SimulationRun.set_status COMPLETED run)))
      w1
  else if negb (OS.exists_ w1 (_afsim_binary c)) then
    finish
      (SimulationRun.set_error_message ("AFSIM binary not found: " ++ _afsim_binary c)
         (SimulationRun.set_status FAILED run))
      w1
  else
    let cmd := ([ _afsim_binary c; scenario_file ] ++ default [] extra_args)%list in
    let log_file := Py.path_join (SimulationRun.output_dir run) "simulation.log" in
    let run := SimulationRun.set_log_file log_file run in
    match spawn e with
    | OS.Spawned pid =>
        finish
          (SimulationRun.set_start_time (Some (now1 e))
             (SimulationRun.set_status RUNNING
                (SimulationRun.set_pid (Some pid) run)))
          (OS.mk (OS.files (OS.write log_file (OS.Text "") w1)) (OS.dirs w1)
                 (OS.spawned w1
                  ++ [ OS.mk_launch cmd (SimulationRun.output_dir run) log_file ]))
    | OS.PopenRaises msg =>
        finish
          (SimulationRun.set_error_message msg (SimulationRun.set_status FAILED run))
          (OS.write log_file (OS.Text "") w1)
    | OS.OpenRaises msg =>
        finish
          (SimulationRun.set_error_message msg (SimulationRun.set_status FAILED run))
          w1
    end)).

Definition _get_run (c : t) (run_id : string) : Py.result SimulationRun.t :=
  match _runs c !! run_id with
  | Some r => Py.Ok r
  | None => Py.Raise (Py.KeyError ("Simulation run '" ++ run_id ++ "' not found."))
  end.

Definition get_run := _get_run.

Definition with_runs (m : gmap string SimulationRun.t) (c : t) : t :=
  mk (_sm c) (_afsim_binary c) (_output_dir c) m.

(** [run.status = status; run.end_time = _now()]. *)
Definition ended (status : SimulationStatus.t) (now : string) (r : SimulationRun.t)
  : SimulationRun.t :=
  SimulationRun.set_end_time (Some now) (SimulationRun.set_status status r).

(** [kill] is what [os.kill(run.pid, 15)] does, if it is called. *)
Definition stop_simulation (now : string) (kill : OS.kill_outcome) (c : t)
    (run_id : string) : Py.result (SimulationRun.t * t) :=
  Py.bind (_get_run c run_id) (fun run =>
  if bool_decide (SimulationRun.status run ≠ RUNNING) then Py.Ok (run, c)
  else
    let finish (run' : SimulationRun.t) :=
      Py.Ok (run', with_runs (<[run_id := run']> (_runs c)) c) in
    match SimulationRun.pid run with
    | Some _ =>
        match kill with
        | OS.Delivered => finish (ended STOPPED now run)
        | OS.ProcessLookupError => finish (ended COMPLETED now run)
        | OS.KillRaises exc => Py.Raise exc
        end
    | None => finish (ended STOPPED now run)
    end).

(** [probe] is what [os.kill(run.pid, 0)] does, if it is called. The
    result is the run object after the call, or the exception that
    escapes it. *)
Definition _refresh_status (now : string) (probe : OS.kill_outcome)
    (run : SimulationRun.t) : Py.result SimulationRun.t :=
  if bool_decide (SimulationRun.status run ≠ RUNNING)
     || bool_decide (SimulationRun.pid run = None) then Py.Ok run
  else
    match probe with
    | OS.Delivered => Py.Ok run
    | OS.ProcessLookupError => Py.Ok (ended COMPLETED now run)
    | OS.KillRaises exc => Py.Raise exc
    end.

Definition _run_info (run : SimulationRun.t) : SimulationRun.t := run.

Definition get_run_status (now : string) (probe : OS.kill_outcome) (c : t)
    (run_id : string) : Py.result (SimulationRun.t * t) :=
  Py.bind (_get_run c run_id) (fun run =>
  Py.bind (_refresh_status now probe run) (fun run' =>
  Py.Ok (_run_info run', with_runs (<[run_id := run']> (_runs c)) c))).

(** *** Sequences of operations *)

Inductive op : Type :=
| Run (e : run_env) (scenario_id : string) (extra_args : option (list string))
      (dry_run : bool)
| Stop (now : string) (kill : OS.kill_outcome) (run_id : string)
| Status (now : string) (probe : OS.kill_outcome) (run_id : string).

(** One operation; a call that raises leaves controller and world as they
    were. *)
Definition step {B : Py.Builtins} (o : op) (st : t * OS.world) : t * OS.world :=
  match o with
  | Run e scenario_id extra_args dry_run =>
      match run_simulation e st.1 st.2 scenario_id extra_args dry_run with
      | Py.Ok (_, c', w') => (c', w')
      | Py.Raise _ => st
      end
  | Stop now kill run_id =>
      match stop_simulation now kill st.1 run_id with
      | Py.Ok (_, c') => (c', st.2)
      | Py.Raise _ => st
      end
  | Status now probe run_id =>
      match get_run_status now probe st.1 run_id with
      | Py.Ok (_, c') => (c', st.2)
      | Py.Raise _ => st
      end
  end.

Definition exec {B : Py.Builtins} (ops : list op) (st : t * OS.world) : t * OS.world :=
  fold_left (fun st o => step o st) ops st.

(** [uuid.uuid4()] never repeats: each [Run] of the sequence gets an
    identifier no run known at that moment has. *)
Fixpoint fresh_ids {B : Py.Builtins} (ops : list op) (st : t * OS.world) : Prop :=
  match ops with
  | [] => True
  | o :: ops' =>
      match o with
      | Run e _ _ _ => _runs st.1 !! new_run_id e = None
      | _ => True
      end
      /\ fresh_ids ops' (step o st)
  end.

End SimulationController.

(** ** afsim_backend.py *)

Module AfsimBackend.

Definition AFSIM_TOOLS : list (string * string) :=
  [ ("wizard", "wsf_wizard"); ("mission", "wsf_mission");
    ("warlock", "wsf_warlock"); ("mystic", "wsf_mystic") ].

(** [table.get(key)] on a table of strings. *)
Fixpoint table_get (key : string) (table : list (string * string)) : option string :=
  match table with
  | [] => None
  | (k, v) :: table' => if String.eqb key k then Some v else table_get key table'
  end.

(** [_afsim_home] is [None] or the path given, kept as a [Path]. *)
Record t : Type := mk {
  _afsim_home : option string;
  _binary_paths : gmap string string
}.

(** [AfsimBackend(afsim_home)]. *)
Definition init (afsim_home : string) : t :=
  mk (if bool_decide (afsim_home = "") then None else Some afsim_home) ∅.

Definition set_afsim_home (path : string) (b : t) : t :=
  mk (Some path) (_binary_paths b).

Definition get_afsim_home {B : Py.Builtins} (b : t) : string :=
  match _afsim_home b with
  | Some home => Py.path_str home
  | None => ""
  end.

Definition set_binary_path {T : Py.TextBuiltins} (tool path : string) (b : t) : t :=
  mk (_afsim_home b) (<[Py.str_lower tool := path]> (_binary_paths b)).

(** [which] is [shutil.which]. *)
Definition get_binary_path {B : Py.Builtins} {T : Py.TextBuiltins}
    (which : string -> option string) (w : OS.world) (b : t) (tool : string)
  : option string :=
  let key := Py.str_lower tool in
  match _binary_paths b !! key with
  | Some path => Some path
  | None =>
      let canonical := default key (table_get key AFSIM_TOOLS) in
      let on_path :=
        match which canonical with
        | Some found => if bool_decide (found = "") then None else Some found
        | None => None
        end in
      match _afsim_home b with
      | Some home =>
          let candidate := Py.path_join (Py.path_join home "bin") canonical in
          if OS.exists_ w candidate then Some candidate else on_path
      | None => on_path
      end
  end.

Definition list_binary_paths {B : Py.Builtins} {T : Py.TextBuiltins}
    (which : string -> option string) (w : OS.world) (b : t)
  : list (string * option string) :=
  map (fun entry => (fst entry, get_binary_path which w b (fst entry))) AFSIM_TOOLS.

(** What [subprocess.Popen] and [subprocess.run] do with a command. *)
Inductive popen_outcome : Type :=
| Started (pid : Z)
| PopenFileNotFound
| PopenRaises (msg : string).

Inductive run_outcome : Type :=
| Finished (returncode : Z) (stdout stderr : string)
| RunFileNotFound
| RunTimeout
| RunRaises (msg : string).

Record process : Type := mk_process {
  popen : list string -> popen_outcome;
  run : list string -> run_outcome
}.

(** The dictionaries [_run_tool] returns. *)
Inductive tool_result : Type :=
| Failure (error tool : string)
| Launched (tool : string) (pid : Z) (cmd : list string)
| Ran (success : bool) (tool : string) (returncode : Z) (stdout stderr : string)
      (cmd : list string).

Definition _run_tool {B : Py.Builtins} {T : Py.TextBuiltins}
    (which : string -> option string) (os : process) (w : OS.world) (b : t)
    (tool : string) (primary_arg : option string) (extra_args : list string)
    (detach : bool) : tool_result :=
  match get_binary_path which w b tool with
  | None | Some EmptyString =>
      Failure ("AFSIM tool '" ++ tool ++ "' not found. "
               ++ "Set AFSIM_HOME or use set_binary_path().") tool
  | Some binary =>
      let cmd :=
        ([ binary ]
         ++ match primary_arg with
            | None | Some EmptyString => []
            | Some arg => [ arg ]
            end
         ++ extra_args)%list in
      if detach then
        match popen os cmd with
        | Started pid => Launched tool pid cmd
        | PopenFileNotFound => Failure ("Binary not found at '" ++ binary ++ "'.") tool
        | PopenRaises msg => Failure msg tool
        end
      else
        match run os cmd with
        | Finished returncode stdout stderr =>
            Ran (returncode =? 0)%Z tool returncode
              (Py.last_chars 4000 stdout) (Py.last_chars 2000 stderr) cmd
        | RunFileNotFound => Failure ("Binary not found at '" ++ binary ++ "'.") tool
        | RunTimeout => Failure ("Tool '" ++ tool ++ "' timed out.") tool
        | RunRaises msg => Failure msg tool
        end
  end.

Definition run_wizard {B : Py.Builtins} {T : Py.TextBuiltins}
    (which : string -> option string) (os : process) (w : OS.world) (b : t)
    (scenario_file : option string) (extra_args : option (list string))
    (detach : bool) : tool_result :=
  _run_tool which os w b "wizard" scenario_file (default [] extra_args) detach.

Definition run_mission {B : Py.Builtins} {T : Py.TextBuiltins}
    (which : string -> option string) (os : process) (w : OS.world) (b : t)
    (scenario_file : option string) (extra_args : option (list string))
    (detach : bool) : tool_result :=
  _run_tool which os w b "mission" scenario_file (default [] extra_args) detach.

Definition run_warlock {B : Py.Builtins} {T : Py.TextBuiltins}
    (which : string -> option string) (os : process) (w : OS.world) (b : t)
    (scenario_file output_dir : string) (extra_args : option (list string))
  : tool_result :=
  _run_tool which os w b "warlock" (Some scenario_file)
    ([ "-o"; output_dir ] ++ default [] extra_args)%list false.

Definition run_mystic {B : Py.Builtins} {T : Py.TextBuiltins}
    (which : string -> option string) (os : process) (w : OS.world) (b : t)
    (results_dir : string) (extra_args : option (list string)) (detach : bool)
  : tool_result :=
  _run_tool which os w b "mystic" (Some results_dir) (default [] extra_args) detach.

End AfsimBackend.

(** ** nl_generator.py: the keyword tables *)

Module NLGenerator.

Definition _MOVER_KEYWORDS : list (string * string) :=
  [ ("fixed", "wsf_fixed_mover"); ("stationary", "wsf_fixed_mover");
    ("route", "wsf_route_mover"); ("patrol", "wsf_route_mover");
    ("air", "wsf_air_mover"); ("fly", "wsf_air_mover");
    ("ground", "wsf_ground_mover"); ("drive", "wsf_ground_mover");
    ("surface", "wsf_surface_mover"); ("sail", "wsf_surface_mover");
    ("subsurface", "wsf_subsurface_mover"); ("dive", "wsf_subsurface_mover");
    ("orbit", "wsf_orbit_mover") ].

Definition _SENSOR_KEYWORDS : list (string * string) :=
  [ ("radar", "wsf_radar_sensor"); ("ew", "wsf_radar_sensor");
    ("eo", "wsf_eo_sensor"); ("camera", "wsf_eo_sensor");
    ("optical", "wsf_eo_sensor"); ("ir", "wsf_ir_sensor");
    ("infrared", "wsf_ir_sensor"); ("comm", "wsf_comm_sensor");
    ("comms", "wsf_comm_sensor"); ("communications", "wsf_comm_sensor") ].

Definition _WEAPON_KEYWORDS : list (string * string) :=
  [ ("missile", "wsf_missile"); ("sam", "wsf_missile"); ("aam", "wsf_missile");
    ("bomb", "wsf_bomb"); ("gun", "wsf_bullet"); ("cannon", "wsf_bullet");
    ("bullet", "wsf_bullet") ].

(** [for kw, val in table.items(): if kw in lower: return val]. *)
Fixpoint first_keyword (lower : string) (table : list (string * string))
  : option string :=
  match table with
  | [] => None
  | (kw, val) :: table' =>
      if Py.contains kw lower then Some val else first_keyword lower table'
  end.

Definition _find_keyword {T : Py.TextBuiltins} (text : string)
    (table : list (string * string)) : option string :=
  first_keyword (Py.str_lower text) table.

Definition mover_defaults : list (string * string) :=
  [ ("aircraft", "wsf_air_mover"); ("fighter", "wsf_air_mover");
    ("bomber", "wsf_air_mover"); ("drone", "wsf_air_mover");
    ("uav", "wsf_air_mover"); ("helicopter", "wsf_air_mover");
    ("ship", "wsf_surface_mover"); ("destroyer", "wsf_surface_mover");
    ("carrier", "wsf_surface_mover"); ("frigate", "wsf_surface_mover");
    ("submarine", "wsf_subsurface_mover"); ("satellite", "wsf_orbit_mover") ].

Definition _infer_mover {T : Py.TextBuiltins} (entity_word prompt : string) : string :=
  let combined := Py.str_lower (entity_word ++ " " ++ prompt) in
  match _find_keyword combined _MOVER_KEYWORDS with
  | Some mover => mover
  | None =>
      default EntityManager.MoverType_ROUTE
        (AfsimBackend.table_get entity_word mover_defaults)
  end.

End NLGenerator.

(** ** results_handler.py: the line readers *)

Module ResultsHandler.

Record lines_result : Type := mk_lines_result {
  file_path : string;
  line_count : nat;
  lines : list string
}.

Definition query_evt {B : Py.Builtins} {T : Py.TextBuiltins} (w : OS.world)
    (path : string) (max_lines : Z) : Py.result lines_result :=
  if negb (OS.exists_ w path) then
    Py.Raise (Py.FileNotFoundError ("Result file not found: " ++ path))
  else
    match OS.files w !! Py.path_str path with
    | Some f =>
        let lines :=
          Py.slice_to max_lines (Py.splitlines (ScenarioManager.read_text f)) in
        Py.Ok (mk_lines_result (Py.path_str path) (length lines) lines)
    | None => Py.Raise (Py.OSError "Is a directory")
    end.

Definition query_aer {B : Py.Builtins} {T : Py.TextBuiltins} (w : OS.world)
    (path : string) (max_lines : Z) : Py.result lines_result :=
  if negb (OS.exists_ w path) then
    Py.Raise (Py.FileNotFoundError ("Result file not found: " ++ path))
  else
    match OS.files w !! Py.path_str path with
    | Some f =>
        let lines :=
          Py.slice_to max_lines (Py.splitlines (ScenarioManager.read_text f)) in
        Py.Ok (mk_lines_result (Py.path_str path) (length lines) lines)
    | None => Py.Raise (Py.OSError "Is a directory")
    end.

End ResultsHandler.

(** * Definitions used to state the properties *)

(** The derivation in the words of the specification: the kind with
    everything up to and including its first underscore removed, and the
    whole kind when it has no underscore. *)
Fixpoint drop_through (sep : ascii) (s : string) : option string :=
  match s with
  | EmptyString => None
  | String c s' => if Ascii.eqb c sep then Some s' else drop_through sep s'
  end.

Definition closing_token (kind : string) : string :=
  default kind (drop_through "_" kind).

(** [c] occurs in [s]. *)
Fixpoint occurs (c : ascii) (s : string) : bool :=
  match s with
  | EmptyString => false
  | String c' s' => Ascii.eqb c' c || occurs c s'
  end.

(** The world in which [run_simulation] takes its decisions: the scenario
    file is written and the output directory of the run is made. *)
Definition world_at_check {B : Py.Builtins} (c : SimulationController.t)
    (w : OS.world) (s : Scenario.t) : OS.world :=
  let fp := ScenarioManager.default_path (SimulationController._sm c) s ".afsim" in
  OS.mkdir_p (Py.path_join (SimulationController._output_dir c) (Scenario.name s))
    (OS.write fp (OS.Text (Scenario.to_afsim s)) (OS.mkdir_p (Py.path_parent fp) w)).

(** ** Example data *)

(** A concrete runtime for the examples: strings print as themselves,
    integers in decimal and every other value as the empty string; paths
    are taken as written and joined with a slash, no directory has
    ancestors, and no foreign text parses as JSON. *)
Definition example_builtins : Py.Builtins :=
  {| Py.format_value := fun v =>
       match v with
       | Py.JStr s => s
       | Py.JNum (Py.PInt z) => pretty z
       | _ => ""
       end;
     Py.path_str := fun p => p;
     Py.path_str_idem := fun _ => eq_refl;
     Py.path_join := fun d n => d ++ "/" ++ n;
     Py.path_parent := fun _ => "";
     Py.path_ancestors := fun _ => [];
     Py.json_loads := fun _ => None |}.

(** A registered scenario with a negative duration, a time step above it,
    and two platforms of one name. *)
Definition bad_scenario : Scenario.t :=
  Scenario.mk "alpha" "id-1" "" (Py.PInt (-1)) (Py.PFloat 1%float)
    [ Platform.mk "p1" "wsf_platform" Position.default [] [];
      Platform.mk "p1" "wsf_platform" Position.default [] [] ]
    [] None.

Definition bad_manager : ScenarioManager.t :=
  ScenarioManager.mk "scenarios" {[ "id-1" := bad_scenario ]}.

(** A file saved without identifier, as an editor or another tool may
    write it. *)
Definition anonymous_document : Py.pydict :=
  [ ("name", Py.JStr "imported"); ("duration_s", Py.JNum (Py.PInt 60)) ].

Definition anonymous_world : OS.world :=
  OS.mk {[ "in/a.json" := OS.Json (Py.JObj anonymous_document) ]} ∅ [].

Definition anonymous_scenario : Scenario.t :=
  Scenario.mk "imported" "" "" (Py.PInt 60) ScenarioManager.default_time_step_s
    [] [] None.

(** A controller over [bad_manager] without binary, and one whose binary is
    on the disk. *)
Definition dry_controller : SimulationController.t :=
  SimulationController.mk bad_manager "" "out" ∅.

Definition live_world : OS.world :=
  OS.mk {[ "/opt/afsim/bin/mission" := OS.Text "" ]} ∅ [].

Definition live_controller : SimulationController.t :=
  SimulationController.mk bad_manager "/opt/afsim/bin/mission" "out" ∅.

Definition first_env : SimulationController.run_env :=
  SimulationController.mk_run_env "run-1" "t0" "t1" (OS.Spawned 4242).

Definition second_env : SimulationController.run_env :=
  SimulationController.mk_run_env "run-2" "t2" "t3"
    (OS.PopenRaises "[Errno 8] Exec format error").

(** The state after a first, dry, run. *)
Definition after_dry_run : SimulationController.t * OS.world :=
  SimulationController.step (B := example_builtins)
    (SimulationController.Run first_env "id-1" None true)
    (dry_controller, OS.mk ∅ ∅ []).

Definition completed_run : SimulationRun.t :=
  SimulationRun.mk "run-1" "alpha" "scenarios/alpha.afsim" SimulationStatus.COMPLETED
    (Some "t0") (Some "t1") None "out/alpha" "" "" [].

(** A text runtime for the examples: the stem of a path is the path,
    [json.dumps] is not needed and gives the empty text, [str.lower]
    lower-cases the letters A to Z, and [splitlines] breaks at line feeds. *)
Definition ascii_lower (c : ascii) : ascii :=
  let n := nat_of_ascii c in
  if (65 <=? n)%nat && (n <=? 90)%nat then ascii_of_nat (n + 32) else c.

Fixpoint lower_ascii_letters (s : string) : string :=
  match s with
  | EmptyString => EmptyString
  | String c s' => String (ascii_lower c) (lower_ascii_letters s')
  end.

Fixpoint split_lines (s : string) : list string :=
  match s with
  | EmptyString => []
  | String c s' =>
      if Ascii.eqb c (ascii_of_nat 10) then EmptyString :: split_lines s'
      else match split_lines s' with
           | [] => [ String c EmptyString ]
           | line :: rest => String c line :: rest
           end
  end.

Definition example_text_builtins : Py.TextBuiltins :=
  {| Py.path_stem := fun p => p;
     Py.json_dumps := fun _ => "";
     Py.str_lower := lower_ascii_letters;
     Py.splitlines := split_lines |}.

(** A manager with two scenarios of one name. *)
Definition twin_scenario : Scenario.t :=
  Scenario.mk "alpha" "id-3" "the other one" (Py.PInt 60) (Py.PInt 1) [] [] None.

Definition twin_manager : ScenarioManager.t :=
  ScenarioManager.mk "scenarios" {[ "id-1" := bad_scenario; "id-3" := twin_scenario ]}.

(** A scenario with one platform that has a parameter and a mover. *)
Definition craft : Platform.t :=
  Platform.mk "craft" "wsf_air_vehicle"
    (Position.mk (Py.PFloat 35%float) (Py.PFloat (-80)%float) (Py.PInt 10000))
    [ Component.mk "craft_mover" "wsf_air_mover" [] ]
    [ ("speed", Py.JNum (Py.PInt 250)) ].

Definition craft_scenario : Scenario.t :=
  Scenario.mk "sortie" "id-4" "" (Py.PInt 600) (Py.PInt 1) [ craft ] [] None.

Definition craft_manager : ScenarioManager.t :=
  ScenarioManager.mk "scenarios" {[ "id-4" := craft_scenario ]}.

(** The state after a run whose process started, and its run. *)
Definition after_spawn : SimulationController.t * OS.world :=
  SimulationController.step (B := example_builtins)
    (SimulationController.Run first_env "id-1" None false)
    (live_controller, live_world).

Definition running_run : SimulationRun.t :=
  SimulationRun.mk "run-1" "alpha" "scenarios/alpha.afsim" SimulationStatus.RUNNING
    (Some "t0") None (Some 4242%Z) "out/alpha" "out/alpha/simulation.log" "" [].

(** A run that starts, a dry run, a stop and two queries. *)
Definition example_ops : list SimulationController.op :=
  [ SimulationController.Run first_env "id-1" None false;
    SimulationController.Run second_env "id-1" None true;
    SimulationController.Status "t4" OS.Delivered "run-1";
    SimulationController.Stop "t5" OS.Delivered "run-1";
    SimulationController.Status "t6" OS.ProcessLookupError "run-1" ].

(** * Properties *)

(** ** Helper lemmas *)

Lemma size_list_to_set_NoDup (l : list string) :
  size (list_to_set l : gset string) = length l <-> NoDup l.
Proof.
  split; [ | apply size_list_to_set ].
  intros Hsize.
  assert (Hsub : elements (list_to_set l : gset string) ⊆+ l).
  { apply NoDup_submseteq; [ apply NoDup_elements | ].
    intros x Hx. apply elem_of_elements in Hx. by apply elem_of_list_to_set in Hx. }
  apply submseteq_length_Permutation in Hsub.
  - rewrite <- Hsub. apply NoDup_elements.
  - unfold size, set_size in Hsize. simpl in Hsize. lia.
Qed.

Lemma has_duplicates_spec (names : list string) :
  ScenarioManager.has_duplicates names = true <-> ~ NoDup names.
Proof.
  unfold ScenarioManager.has_duplicates.
  rewrite negb_true_iff, Nat.eqb_neq, <- size_list_to_set_NoDup.
  split; intros H E; apply H; congruence.
Qed.

(** ** The embedding on concrete inputs *)

Example split_once_kind : Py.split_once "_" "wsf_radar_sensor" = [ "wsf"; "radar_sensor" ].
Proof. reflexivity. Qed.

Example split_once_plain : Py.split_once "_" "radar" = [ "radar" ].
Proof. reflexivity. Qed.

Example split_once_leading : Py.split_once "_" "_x" = [ ""; "x" ].
Proof. reflexivity. Qed.

Example num_gt_float_int : Py.num_gt (Py.PFloat 1.5%float) (Py.PInt 1) = true.
Proof. vm_compute. reflexivity. Qed.

Example num_gt_int_float : Py.num_gt (Py.PInt 1) (Py.PFloat 1.5%float) = false.
Proof. vm_compute. reflexivity. Qed.

Example num_gt_exact :
  Py.num_gt (Py.PInt 9007199254740993) (Py.PFloat 9007199254740992%float) = true.
Proof. vm_compute. reflexivity. Qed.

Example num_gt_nan : Py.num_gt (Py.PFloat PrimFloat.nan) (Py.PInt 0) = false.
Proof. vm_compute. reflexivity. Qed.

Example num_le0_negative : Py.num_le0 (Py.PFloat (-0.5)%float) = true.
Proof. vm_compute. reflexivity. Qed.

(** The scenario of the specification's example: valid, with the warning
    about platforms. *)
Example validate_alpha :
  ScenarioManager.validate (B := example_builtins)
    (Scenario.mk "alpha" "id-0" "" (Py.PInt 3600) (Py.PInt 1) [] [] None)
  = ScenarioManager.mk_report true [] [ ScenarioManager.W_NO_PLATFORMS ].
Proof. vm_compute. reflexivity. Qed.

Example validate_bad_scenario :
  ScenarioManager.validate (B := example_builtins) bad_scenario
  = ScenarioManager.mk_report false
      [ "Simulation duration must be positive (got -1)."; ScenarioManager.E_DUPLICATE ]
      [ ScenarioManager.W_TIME_STEP ].
Proof. vm_compute. reflexivity. Qed.

Example render_component :
  Component.to_afsim_block (B := example_builtins)
    (Component.mk "nose" "wsf_radar_sensor" [ ("range", Py.JNum (Py.PInt 5)) ])
  = ("  wsf_radar_sensor nose" ++ Py.nl ++ "    range 5" ++ Py.nl ++ "  end_radar_sensor")%string.
Proof. vm_compute. reflexivity. Qed.

(** ** Validation (C1) *)

Section Validation.
Context {B : Py.Builtins}.

Import ScenarioManager.

Lemma errors_of_validate (s : Scenario.t) (e : string) :
  e ∈ errors (validate s) ->
  e = E_NAME \/ e = E_DURATION (Scenario.duration_s s)
  \/ e = E_TIME_STEP (Scenario.time_step_s s) \/ e = E_DUPLICATE.
Proof.
  unfold validate; simpl.
  rewrite !elem_of_app.
  intros [[Hn | [Hd | Ht]] | Hp].
  - case_bool_decide; [ apply list_elem_of_singleton in Hn | inversion Hn ]; auto.
  - destruct (Py.num_le0 _); [ apply list_elem_of_singleton in Hd | inversion Hd ]; auto.
  - destruct (Py.num_le0 _); [ apply list_elem_of_singleton in Ht | inversion Ht ]; auto.
  - destruct (has_duplicates _); [ apply list_elem_of_singleton in Hp | inversion Hp ]; auto.
Qed.

Lemma warnings_are_not_errors (s : Scenario.t) :
  (W_TIME_STEP ∉ errors (validate s)) /\ (W_NO_PLATFORMS ∉ errors (validate s)).
Proof.
  split; intros Hin; apply errors_of_validate in Hin;
    unfold W_TIME_STEP, W_NO_PLATFORMS, E_NAME, E_DURATION, E_TIME_STEP, E_DUPLICATE in Hin;
    simpl in Hin; destruct Hin as [H1 | [H1 | [H1 | H1]]]; discriminate H1.
Qed.

(** C1. For a scenario of the registry, [validate_scenario] returns a report
    whose [valid] is true exactly when [errors] is empty (the warnings play
    no part); the report has an error for an empty name, for a duration
    [<= 0], for a time step [<= 0] and for duplicate platform names, and a
    warning that is not an error when the time step exceeds the duration and
    when there are no platforms. *)
Theorem validate_scenario_report (sm : ScenarioManager.t) (id : string)
    (s : Scenario.t) :
  _active_scenarios sm !! id = Some s ->
  exists r,
    validate_scenario sm id = Py.Ok r
    /\ (valid r = true <-> errors r = [])
    /\ (Scenario.name s = "" -> E_NAME ∈ errors r)
    /\ (Py.num_le0 (Scenario.duration_s s) = true ->
        E_DURATION (Scenario.duration_s s) ∈ errors r)
    /\ (Py.num_le0 (Scenario.time_step_s s) = true ->
        E_TIME_STEP (Scenario.time_step_s s) ∈ errors r)
    /\ (~ NoDup (map Platform.name (Scenario.platforms s)) -> E_DUPLICATE ∈ errors r)
    /\ (Py.num_gt (Scenario.time_step_s s) (Scenario.duration_s s) = true ->
        (W_TIME_STEP ∈ warnings r) /\ (W_TIME_STEP ∉ errors r))
    /\ (Scenario.platforms s = [] ->
        (W_NO_PLATFORMS ∈ warnings r) /\ (W_NO_PLATFORMS ∉ errors r)).
Proof.
  intros Hreg. exists (validate s).
  split; [ unfold validate_scenario, _get; by rewrite Hreg | ].
  split.
  { unfold validate; simpl. rewrite Nat.eqb_eq. apply length_zero_iff_nil. }
  destruct (warnings_are_not_errors s) as [Hw1 Hw2].
  unfold validate in *; simpl in *.
  split; [ | split; [ | split; [ | split; [ | split ] ] ] ].
  - intros Hn. rewrite bool_decide_eq_true_2 by done.
    rewrite !elem_of_app. left; left. apply list_elem_of_here.
  - intros ->. rewrite !elem_of_app. left; right; left. apply list_elem_of_here.
  - intros ->. rewrite !elem_of_app. left; right; right. apply list_elem_of_here.
  - intros Hd. apply has_duplicates_spec in Hd. rewrite Hd.
    rewrite !elem_of_app. right. apply list_elem_of_here.
  - intros Hgt. split; [ | exact Hw1 ].
    rewrite Hgt. apply list_elem_of_here.
  - intros Hps. split; [ | exact Hw2 ].
    rewrite Hps, elem_of_app. right. apply list_elem_of_here.
Qed.

End Validation.

Lemma validate_scenario_report_witness :
  ScenarioManager._active_scenarios bad_manager !! "id-1" = Some bad_scenario
  /\ exists r,
      ScenarioManager.validate_scenario (B := example_builtins) bad_manager "id-1"
      = Py.Ok r
      /\ (ScenarioManager.valid r = true <-> ScenarioManager.errors r = []).
Proof.
  assert (Hreg : ScenarioManager._active_scenarios bad_manager !! "id-1"
                 = Some bad_scenario) by reflexivity.
  split; [ exact Hreg | ].
  destruct (validate_scenario_report (B := example_builtins)
              bad_manager "id-1" bad_scenario Hreg) as (r & Hr & Hv & _).
  exists r. split; assumption.
Defined.

(** ** The closing line of a component block (C9) *)

Lemma drop_through_first (sep : ascii) (pre rest : string) :
  occurs sep pre = false ->
  drop_through sep (pre ++ String sep rest) = Some rest.
Proof.
  induction pre as [ | c pre IH ]; simpl.
  - intros _. by rewrite Ascii.eqb_refl.
  - intros Hocc. apply orb_false_iff in Hocc as [Hc Hpre].
    rewrite Hc. by apply IH.
Qed.

Lemma drop_through_none (sep : ascii) (s : string) :
  occurs sep s = false -> drop_through sep s = None.
Proof.
  induction s as [ | c s IH ]; simpl; [ done | ].
  intros Hocc. apply orb_false_iff in Hocc as [Hc Hs].
  rewrite Hc. by apply IH.
Qed.

Lemma closing_token_strips (pre rest : string) :
  occurs "_" pre = false -> closing_token (pre ++ String "_" rest) = rest.
Proof. intros H. unfold closing_token. by rewrite drop_through_first. Qed.

Lemma closing_token_whole (kind : string) :
  occurs "_" kind = false -> closing_token kind = kind.
Proof. intros H. unfold closing_token. by rewrite drop_through_none. Qed.

Lemma split_once_shape (sep : ascii) (s : string) :
  match drop_through sep s with
  | Some rest => exists pre, Py.split_once sep s = [ pre; rest ]
  | None => Py.split_once sep s = [ s ]
  end.
Proof.
  induction s as [ | c s IH ]; simpl; [ done | ].
  destruct (Ascii.eqb c sep); [ by eexists | ].
  destruct (drop_through sep s) as [ rest | ].
  - destruct IH as [pre ->]. by eexists.
  - by rewrite IH.
Qed.

Lemma split_once_last (kind : string) :
  Py.last_item (Py.split_once "_" kind) = closing_token kind.
Proof.
  unfold closing_token, Py.last_item.
  pose proof (split_once_shape "_" kind) as H.
  destruct (drop_through "_" kind) as [ rest | ].
  - by destruct H as [pre ->].
  - by rewrite H.
Qed.

Lemma string_app_assoc (a b c : string) :
  ((a ++ b) ++ c = a ++ b ++ c)%string.
Proof.
  induction a as [ | x a IH ]; [ reflexivity | ].
  change (String x ((a ++ b) ++ c) = String x (a ++ b ++ c))%string.
  by rewrite IH.
Qed.

Lemma join_snoc (sep : string) (front : list string) (x : string) :
  front <> [] -> Py.join sep (front ++ [ x ])%list = (Py.join sep front ++ sep ++ x)%string.
Proof.
  induction front as [ | a front IH ]; [ done | intros _ ].
  destruct front as [ | b front ]; [ done | ].
  change (Py.join sep ((a :: b :: front) ++ [ x ]))
    with (a ++ sep ++ Py.join sep ((b :: front) ++ [ x ]))%string.
  rewrite IH by done.
  change (Py.join sep (a :: b :: front)) with (a ++ sep ++ Py.join sep (b :: front))%string.
  by rewrite !string_app_assoc.
Qed.

(** C9. The lines of a rendered component end with the closing line
    ["  end_"] followed by the kind stripped of everything up to and
    including its first underscore (the whole kind when it has none), and
    the rendered text ends with a line break and that line. *)
Theorem component_closing_line {B : Py.Builtins} (c : Component.t) :
  let closing := ("  end_" ++ closing_token (Component.component_type c))%string in
  last (Component.block_lines c) = Some closing
  /\ exists front : list string,
       Component.block_lines c = (front ++ [ closing ])%list
       /\ Component.to_afsim_block c = (Py.join Py.nl front ++ Py.nl ++ closing)%string.
Proof.
  intros closing. unfold Component.to_afsim_block, Component.block_lines.
  rewrite split_once_last. fold closing. rewrite app_assoc.
  split; [ apply last_snoc | ].
  eexists. split; [ reflexivity | ].
  by apply join_snoc.
Qed.

(** The two cases of the derivation, on kinds of the enumerations and on a
    kind without underscore. *)
Example closing_token_radar : closing_token "wsf_radar_sensor" = "radar_sensor".
Proof. reflexivity. Qed.

Example closing_token_no_underscore : closing_token "radar" = "radar".
Proof. reflexivity. Qed.

(** ** Creating platforms (C4) *)

Lemma store_lookup (sm : ScenarioManager.t) (id : string) (s : Scenario.t) :
  ScenarioManager._active_scenarios (EntityManager.store sm id s) !! id = Some s.
Proof. unfold EntityManager.store; simpl. apply lookup_insert_eq. Qed.

Lemma store_lookup_ne (sm : ScenarioManager.t) (id id' : string) (s : Scenario.t) :
  id <> id' ->
  ScenarioManager._active_scenarios (EntityManager.store sm id s) !! id'
  = ScenarioManager._active_scenarios sm !! id'.
Proof. intros Hne. unfold EntityManager.store; simpl. by apply lookup_insert_ne. Qed.

Lemma get_scenario_registered (sm : ScenarioManager.t) (id : string) (s : Scenario.t) :
  ScenarioManager._active_scenarios sm !! id = Some s ->
  ScenarioManager.get_scenario sm id = Py.Ok s.
Proof. intros H. unfold ScenarioManager.get_scenario, ScenarioManager._get. by rewrite H. Qed.

Lemma get_registered (sm : ScenarioManager.t) (id : string) (s : Scenario.t) :
  ScenarioManager._active_scenarios sm !! id = Some s ->
  ScenarioManager._get sm id = Py.Ok s.
Proof. apply get_scenario_registered. Qed.

(** C4. In a registered scenario, [create_platform] with the name of one of
    its platforms raises the [ValueError] that reports the name as already
    existing, before anything is changed; with a name none of its platforms
    has, it succeeds, the new platform is appended to the scenario's
    platforms, whose number grows by exactly one, and the other scenarios
    are as before. *)
Theorem create_platform_unique (sm : ScenarioManager.t) (id name ptype : string)
    (lat lon alt : Py.pynum) (params : option Py.pydict) (s : Scenario.t) :
  ScenarioManager._active_scenarios sm !! id = Some s ->
  (name ∈ map Platform.name (Scenario.platforms s) ->
   EntityManager.create_platform sm id name ptype lat lon alt params
   = Py.Raise (Py.ValueError ("Platform '" ++ name ++ "' already exists in scenario '"
                              ++ Scenario.name s ++ "'.")))
  /\ (name ∉ map Platform.name (Scenario.platforms s) ->
      exists info sm' s',
        EntityManager.create_platform sm id name ptype lat lon alt params
        = Py.Ok (info, sm')
        /\ EntityManager.info_name info = name
        /\ ScenarioManager._active_scenarios sm' !! id = Some s'
        /\ Scenario.platforms s'
           = (Scenario.platforms s
              ++ [ Platform.mk name ptype (Position.mk lat lon alt) []
                     (Py.dict_or_empty params) ])%list
        /\ length (Scenario.platforms s') = S (length (Scenario.platforms s))
        /\ forall id', id' <> id ->
             ScenarioManager._active_scenarios sm' !! id'
             = ScenarioManager._active_scenarios sm !! id').
Proof.
  intros Hreg.
  unfold EntityManager.create_platform, EntityManager._check_unique_platform.
  rewrite (get_scenario_registered _ _ _ Hreg); simpl.
  split; intros Hname.
  - rewrite bool_decide_eq_true_2; [ done | ].
    by apply elem_of_list_to_set.
  - rewrite bool_decide_eq_false_2; [ | by rewrite elem_of_list_to_set ].
    simpl. eexists _, _, _.
    split; [ reflexivity | ].
    split; [ reflexivity | ].
    split; [ apply store_lookup | ].
    split; [ reflexivity | ].
    split; [ simpl; rewrite length_app; simpl; lia | ].
    intros id' Hne. by apply store_lookup_ne.
Qed.

(** ** Removing platforms and components (C5) *)

Section Removal.

Import EntityManager.


Lemma filter_no_match {A} (P : A -> Prop) `{!forall x, Decision (P x)} (l : list A) :
  (forall x, x ∈ l -> ~ P x) -> filter (fun x => ~ P x) l = l.
Proof.
  induction l as [ | x l IH ]; [ done | ].
  intros Hall. rewrite filter_cons.
  destruct (decide (~ P x)) as [ _ | Hx ].
  - f_equal. apply IH. intros y Hy. apply Hall. by right.
  - exfalso. apply Hx, Hall. by left.
Qed.


Lemma find_platform_update (n : string) (f : Platform.t -> Platform.t)
    (ps : list Platform.t) :
  (forall p, Platform.name (f p) = Platform.name p) ->
  find_platform n (update_platform n f ps) = f <$> find_platform n ps.
Proof.
  intros Hname. induction ps as [ | p ps IH ]; [ done | ].
  simpl. case_bool_decide as Hp; simpl.
  - by rewrite Hname, bool_decide_eq_true_2.
  - by rewrite bool_decide_eq_false_2.
Qed.

Lemma find_platform_None (n : string) (ps : list Platform.t) :
  find_platform n ps = None <-> n ∉ map Platform.name ps.
Proof.
  induction ps as [ | p ps IH ]; simpl.
  - split; [ intros _ H; inversion H | done ].
  - rewrite not_elem_of_cons. case_bool_decide as Hp.
    + split; [ done | intros [Hne _]; by subst ].
    + rewrite IH. split; [ intros H; split; [ congruence | done ] | tauto ].
Qed.

End Removal.

Section RemovalTheorem.

Import EntityManager.

Lemma with_platforms_same (s : Scenario.t) :
  Scenario.with_platforms (Scenario.platforms s) s = s.
Proof. by destruct s. Qed.



Lemma elem_of_names {A} (name : A -> string) (n : string) (l : list A) :
  n ∈ map name l <-> exists x, x ∈ l /\ name x = n.
Proof.
  change (map name l) with (name <$> l). rewrite list_elem_of_fmap.
  split; [ intros (x & -> & Hx) | intros (x & Hx & <-) ]; eauto.
Qed.


End RemovalTheorem.


(** ** The structured form round trip (C2) *)

Section Roundtrip.

Import ScenarioManager.

Lemma traverse_map {A B} (f : B -> Py.result A) (g : A -> B) (l : list A) :
  (forall x, f (g x) = Py.Ok x) -> traverse f (map g l) = Py.Ok l.
Proof.
  intros Hfg. induction l as [ | x l IH ]; [ done | ].
  simpl. by rewrite Hfg, IH.
Qed.

Lemma component_from_to_dict (c : Component.t) :
  component_from_dict (component_to_dict c) = Py.Ok c.
Proof. by destruct c. Qed.

Lemma platform_from_to_dict (p : Platform.t) :
  platform_from_dict (platform_to_dict p) = Py.Ok p.
Proof.
  destruct p as [name ptype [lat lon alt] comps params].
  unfold platform_from_dict, platform_to_dict; cbn.
  by rewrite (traverse_map _ _ comps component_from_to_dict).
Qed.

Lemma scenario_from_to_dict (s : Scenario.t) :
  _scenario_from_dict (_scenario_to_dict s) = Py.Ok (Scenario.with_file_path None s).
Proof.
  destruct s as [name id descr dur ts ps params fp].
  unfold _scenario_from_dict, _scenario_to_dict; cbn.
  by rewrite (traverse_map _ _ ps platform_from_to_dict).
Qed.

End Roundtrip.

Section LoadJson.
Context {B : Py.Builtins}.

Import ScenarioManager.

Ltac bind_inv H :=
  repeat match type of H with
         | Py.bind ?r _ = Py.Ok _ =>
             let a := fresh "a" in
             let E := fresh "E" in
             destruct r as [ a | ] eqn:E; simpl in H; [ | discriminate H ]
         end.

Lemma scenario_from_dict_no_id (d : Py.pydict) (s : Scenario.t) :
  Py.dict_get "scenario_id" d = None ->
  _scenario_from_dict (Py.JObj d) = Py.Ok s ->
  Scenario.scenario_id s = "".
Proof.
  intros Hnone Hdec. unfold _scenario_from_dict in Hdec.
  bind_inv Hdec.
  rewrite Hnone in E4. injection E4 as <-. by injection Hdec as <-.
Qed.

Lemma load_scenario_json_ok (sm : t) (w : OS.world) (file_path : string)
    (data : Py.json) (s0 : Scenario.t) :
  OS.files w !! Py.path_str file_path = Some (OS.Json data) ->
  _scenario_from_dict data = Py.Ok s0 ->
  load_scenario_json sm w file_path
  = let s := Scenario.with_file_path (Some (Py.path_str file_path)) s0 in
    Py.Ok (s, with_scenarios (<[Scenario.scenario_id s0 := s]> (_active_scenarios sm)) sm).
Proof.
  intros Hfile Hdec. unfold load_scenario_json, OS.exists_.
  rewrite Hfile, bool_decide_eq_true_2 by done. simpl.
  by rewrite Hdec.
Qed.

(** C2. Saving a registered scenario in the structured form and loading the
    file the save returns, into any manager, yields a scenario with the
    same name, duration, time step, parameters and platforms (so each
    platform's name, type, position, parameters and components in order);
    identifier and description are kept as well, and only the recorded file
    path is new. *)
Theorem structured_round_trip (sm sm2 : t) (w : OS.world) (id : string)
    (file_path : option string) (s : Scenario.t) :
  _active_scenarios sm !! id = Some s ->
  exists path w' s' sm2',
    save_scenario_json sm w id file_path = Py.Ok (path, w')
    /\ load_scenario_json sm2 w' path = Py.Ok (s', sm2')
    /\ Scenario.name s' = Scenario.name s
    /\ Scenario.duration_s s' = Scenario.duration_s s
    /\ Scenario.time_step_s s' = Scenario.time_step_s s
    /\ Scenario.parameters s' = Scenario.parameters s
    /\ Scenario.platforms s' = Scenario.platforms s
    /\ s' = Scenario.with_file_path (Some path) s.
Proof.
  intros Hreg. unfold save_scenario_json.
  rewrite (get_registered _ _ _ Hreg); simpl.
  set (fp := default (default_path sm s ".json") file_path).
  eexists _, _, _, _. split; [ reflexivity | ].
  split.
  { rewrite (load_scenario_json_ok _ _ _ (_scenario_to_dict s)
               (Scenario.with_file_path None s)).
    - reflexivity.
    - rewrite Py.path_str_idem. unfold OS.write; simpl. apply lookup_insert_eq.
    - apply scenario_from_to_dict. }
  rewrite Py.path_str_idem. by destruct s.
Qed.

(** C10. A structured file whose top-level object has no [scenario_id]
    entry, and which decodes, loads as a scenario whose identifier is the
    empty string, registered under the empty string. A second such load
    into the resulting manager registers its scenario under the same key:
    the registry is then the one before the first load with the second
    scenario under the empty string. *)
Theorem load_without_scenario_id (sm : t) (w : OS.world) (file_path : string)
    (d : Py.pydict) (s0 : Scenario.t) :
  OS.files w !! Py.path_str file_path = Some (OS.Json (Py.JObj d)) ->
  Py.dict_get "scenario_id" d = None ->
  _scenario_from_dict (Py.JObj d) = Py.Ok s0 ->
  exists s sm',
    load_scenario_json sm w file_path = Py.Ok (s, sm')
    /\ Scenario.scenario_id s = ""
    /\ _active_scenarios sm' !! "" = Some s
    /\ forall (file_path2 : string) (d2 : Py.pydict) (s02 : Scenario.t),
         OS.files w !! Py.path_str file_path2 = Some (OS.Json (Py.JObj d2)) ->
         Py.dict_get "scenario_id" d2 = None ->
         _scenario_from_dict (Py.JObj d2) = Py.Ok s02 ->
         exists s2 sm'',
           load_scenario_json sm' w file_path2 = Py.Ok (s2, sm'')
           /\ Scenario.scenario_id s2 = ""
           /\ _active_scenarios sm'' !! "" = Some s2
           /\ _active_scenarios sm'' = <["" := s2]> (_active_scenarios sm).
Proof.
  intros Hfile Hnone Hdec.
  pose proof (scenario_from_dict_no_id _ _ Hnone Hdec) as Hid.
  rewrite (load_scenario_json_ok _ _ _ _ _ Hfile Hdec); cbv zeta.
  eexists _, _. split; [ reflexivity | ].
  split; [ by destruct s0 | ].
  split; [ simpl; rewrite Hid; apply lookup_insert_eq | ].
  intros file_path2 d2 s02 Hfile2 Hnone2 Hdec2.
  pose proof (scenario_from_dict_no_id _ _ Hnone2 Hdec2) as Hid2.
  rewrite (load_scenario_json_ok _ _ _ _ _ Hfile2 Hdec2); cbv zeta.
  eexists _, _. split; [ reflexivity | ].
  split; [ by destruct s02 | ].
  simpl. rewrite Hid, Hid2.
  split; [ apply lookup_insert_eq | apply insert_insert_eq ].
Qed.

End LoadJson.

(** ** Runs (C3, C6, C7, C8) *)

Section Runs.
Context {B : Py.Builtins}.

Import SimulationStatus SimulationController.

Lemma save_scenario_registered (sm : ScenarioManager.t) (w : OS.world) (id : string)
    (s : Scenario.t) :
  ScenarioManager._active_scenarios sm !! id = Some s ->
  ScenarioManager.save_scenario sm w id None
  = let fp := ScenarioManager.default_path sm s ".afsim" in
    Py.Ok (Py.path_str fp,
           ScenarioManager.with_scenarios
             (<[id := Scenario.with_file_path (Some (Py.path_str fp)) s]>
                (ScenarioManager._active_scenarios sm)) sm,
           OS.write fp (OS.Text (Scenario.to_afsim s)) (OS.mkdir_p (Py.path_parent fp) w)).
Proof.
  intros Hreg. unfold ScenarioManager.save_scenario.
  by rewrite (get_registered _ _ _ Hreg).
Qed.

Lemma world_at_check_files (c : t) (w : OS.world) (s : Scenario.t) :
  OS.files (world_at_check c w s)
    !! Py.path_str (ScenarioManager.default_path (_sm c) s ".afsim")
  = Some (OS.Text (Scenario.to_afsim s))
  /\ OS.spawned (world_at_check c w s) = OS.spawned w.
Proof. split; [ apply lookup_insert_eq | reflexivity ]. Qed.

(** A path absent from the disk before the call is absent when the code
    looks, unless it is the scenario file or one of the directories the
    call makes. *)
Lemma exists_at_check (c : t) (w : OS.world) (s : Scenario.t) (p : string) :
  let fp := ScenarioManager.default_path (_sm c) s ".afsim" in
  let out := Py.path_join (_output_dir c) (Scenario.name s) in
  OS.exists_ w p = false ->
  Py.path_str p <> Py.path_str fp ->
  Py.path_str p ∉ Py.path_str (Py.path_parent fp) :: Py.path_ancestors (Py.path_parent fp) ->
  Py.path_str p ∉ Py.path_str out :: Py.path_ancestors out ->
  OS.exists_ (world_at_check c w s) p = false.
Proof.
  intros fp out Hw Hfp Hpar Hout.
  unfold OS.exists_ in *. apply orb_false_iff in Hw as [Hf Hd].
  apply bool_decide_eq_false in Hf. apply bool_decide_eq_false in Hd.
  apply orb_false_iff. split; apply bool_decide_eq_false.
  - unfold world_at_check; simpl. rewrite lookup_insert_ne; [ done | ].
    fold fp. congruence.
  - unfold world_at_check; simpl. fold fp out.
    rewrite not_elem_of_cons in Hpar, Hout.
    rewrite !elem_of_union, !elem_of_list_to_set, !elem_of_singleton. tauto.
Qed.

(** For a registered scenario [run_simulation] returns: the scenario gets
    its file path, the run is registered under its identifier. *)
Lemma run_simulation_registered (e : run_env) (c : t) (w : OS.world) (id : string)
    (extra : option (list string)) (dry_run : bool) (s : Scenario.t) :
  ScenarioManager._active_scenarios (_sm c) !! id = Some s ->
  exists run w',
    run_simulation e c w id extra dry_run
    = Py.Ok (run,
             mk (ScenarioManager.with_scenarios
                   (<[id := Scenario.with_file_path
                              (Some (Py.path_str
                                       (ScenarioManager.default_path (_sm c) s ".afsim"))) s]>
                      (ScenarioManager._active_scenarios (_sm c))) (_sm c))
                (_afsim_binary c) (_output_dir c) (<[new_run_id e := run]> (_runs c)),
             w').
Proof.
  intros Hreg. unfold run_simulation.
  rewrite (get_scenario_registered _ _ _ Hreg); simpl.
  rewrite (save_scenario_registered _ _ _ _ Hreg); simpl.
  destruct (dry_run || bool_decide (_afsim_binary c = "")); [ by eexists _, _ | ].
  destruct (negb (OS.exists_ _ _)); [ by eexists _, _ | ].
  destruct (spawn e); by eexists _, _.
Qed.



(** C8, as the code has it. For a registered scenario [run_simulation]
    returns a run and registers it, whatever starting the process does: when
    opening the log file or [subprocess.Popen] raises, the run returned is
    [FAILED], carries the message of the exception and has no process id,
    and no process is recorded. For [stop_simulation], a termination signal
    that finds no process is caught as well, but the run becomes
    [COMPLETED] with an end time and its error message stays as it was. *)
Theorem process_failures_recorded (c : t) (w : OS.world) :
  (forall (e : run_env) (id : string) (extra : option (list string)) (dry_run : bool)
          (s : Scenario.t),
      ScenarioManager._active_scenarios (_sm c) !! id = Some s ->
      exists run c' w',
        run_simulation e c w id extra dry_run = Py.Ok (run, c', w')
        /\ _runs c' !! new_run_id e = Some run
        /\ forall msg,
             dry_run = false ->
             _afsim_binary c <> "" ->
             OS.exists_ (world_at_check c w s) (_afsim_binary c) = true ->
             spawn e = OS.OpenRaises msg \/ spawn e = OS.PopenRaises msg ->
             SimulationRun.status run = FAILED
             /\ SimulationRun.error_message run = msg
             /\ SimulationRun.pid run = None
             /\ OS.spawned w' = OS.spawned w)
  /\ (forall (now run_id : string) (r : SimulationRun.t) (pid : Z),
        _runs c !! run_id = Some r ->
        SimulationRun.status r = RUNNING ->
        SimulationRun.pid r = Some pid ->
        exists r' c',
          stop_simulation now OS.ProcessLookupError c run_id = Py.Ok (r', c')
          /\ _runs c' !! run_id = Some r'
          /\ SimulationRun.status r' = COMPLETED
          /\ SimulationRun.end_time r' = Some now
          /\ SimulationRun.error_message r' = SimulationRun.error_message r).
Proof.
  split.
  - intros e id extra dry_run s Hreg. unfold run_simulation.
    rewrite (get_scenario_registered _ _ _ Hreg); simpl.
    rewrite (save_scenario_registered _ _ _ _ Hreg); simpl.
    fold (world_at_check c w s).
    destruct (dry_run || bool_decide (_afsim_binary c = "")) eqn:Hdry.
    { eexists _, _, _. split; [ reflexivity | ].
      split; [ apply lookup_insert_eq | ].
      intros msg -> Hbin. by rewrite (bool_decide_eq_false_2 _ Hbin) in Hdry. }
    destruct (negb (OS.exists_ _ _)) eqn:Hex.
    { eexists _, _, _. split; [ reflexivity | ].
      split; [ apply lookup_insert_eq | ].
      intros msg _ _ Hyes. by rewrite Hyes in Hex. }
    destruct (spawn e) as [ m | m | pid ]; eexists _, _, _;
      (split; [ reflexivity | ]); (split; [ apply lookup_insert_eq | ]);
      intros msg _ _ _ [ Hsp | Hsp ]; try discriminate Hsp;
      injection Hsp as <-; by repeat split.
  - intros now run_id r pid Hrun Hst Hpid. unfold stop_simulation, _get_run.
    rewrite Hrun; simpl.
    rewrite bool_decide_eq_false_2 by (rewrite Hst; by intros []).
    rewrite Hpid. eexists _, _. split; [ reflexivity | ].
    split; [ apply lookup_insert_eq | ]. by repeat split.
Qed.

Lemma stop_not_running (now : string) (kill : OS.kill_outcome) (c : t)
    (run_id : string) (r : SimulationRun.t) :
  _runs c !! run_id = Some r ->
  SimulationRun.status r <> RUNNING ->
  stop_simulation now kill c run_id = Py.Ok (r, c).
Proof.
  intros Hrun Hst. unfold stop_simulation, _get_run. rewrite Hrun; simpl.
  by rewrite bool_decide_eq_true_2.
Qed.

Lemma refresh_not_running (now : string) (probe : OS.kill_outcome)
    (r : SimulationRun.t) :
  SimulationRun.status r <> RUNNING -> _refresh_status now probe r = Py.Ok r.
Proof.
  intros Hst. unfold _refresh_status. by rewrite bool_decide_eq_true_2.
Qed.

Lemma terminal_not_running (s : SimulationStatus.t) :
  terminal s = true -> s <> RUNNING.
Proof. by destruct s. Qed.

(** One operation leaves a run in a terminal state as it is. *)
Lemma step_keeps_terminal (o : op) (st : t * OS.world) (run_id : string)
    (r : SimulationRun.t) :
  _runs st.1 !! run_id = Some r ->
  terminal (SimulationRun.status r) = true ->
  match o with
  | Run e _ _ _ => _runs st.1 !! new_run_id e = None
  | _ => True
  end ->
  _runs (step o st).1 !! run_id = Some r.
Proof.
  intros Hrun Hterm Hfresh. apply terminal_not_running in Hterm.
  destruct st as [c w]. simpl in *.
  destruct o as [ e id extra dry | now kill rid | now probe rid ]; simpl.
  - destruct (ScenarioManager._active_scenarios (_sm c) !! id) as [ s | ] eqn:Hreg.
    + destruct (run_simulation_registered e c w id extra dry s Hreg)
        as (run & w' & ->). simpl.
      rewrite lookup_insert_ne; [ done | congruence ].
    + unfold run_simulation, ScenarioManager.get_scenario, ScenarioManager._get.
      by rewrite Hreg.
  - destruct (decide (rid = run_id)) as [ -> | Hne ].
    + by rewrite (stop_not_running now kill c run_id r Hrun Hterm).
    + destruct (stop_simulation now kill c rid) as [ [r' c'] | ] eqn:Hstop; [ | done ].
      simpl. unfold stop_simulation, _get_run in Hstop.
      destruct (_runs c !! rid) as [ r0 | ]; simpl in Hstop; [ | discriminate Hstop ].
      case_bool_decide; [ by injection Hstop as <- <- | ].
      destruct (SimulationRun.pid r0); [ destruct kill | ];
        try discriminate Hstop; injection Hstop as <- <-; simpl;
        by rewrite lookup_insert_ne.
  - unfold get_run_status, _get_run.
    destruct (_runs c !! rid) as [ r0 | ] eqn:Hr0; simpl; [ | done ].
    destruct (_refresh_status now probe r0) as [ r1 | ] eqn:Href; simpl; [ | done ].
    destruct (decide (rid = run_id)) as [ -> | Hne ].
    + rewrite Hrun in Hr0. injection Hr0 as <-.
      rewrite (refresh_not_running now probe r Hterm) in Href.
      injection Href as <-. apply lookup_insert_eq.
    + by rewrite lookup_insert_ne.
Qed.

(** C3. Through any sequence of run, stop and status operations in which
    every new run gets an identifier not in use, a run that is in a
    terminal state keeps its record, and so its status. In particular
    [stop_simulation] on a run that is not [RUNNING] returns the record and
    leaves the controller as it is, and the liveness probe of the status
    query leaves every run that is not [RUNNING] as it is. *)
Theorem terminal_is_final (st : t * OS.world) (run_id : string)
    (r : SimulationRun.t) :
  _runs st.1 !! run_id = Some r ->
  terminal (SimulationRun.status r) = true ->
  (forall ops : list op,
      fresh_ids ops st -> _runs (exec ops st).1 !! run_id = Some r)
  /\ (forall now kill, stop_simulation now kill st.1 run_id = Py.Ok (r, st.1))
  /\ (forall now probe,
        exists c', get_run_status now probe st.1 run_id = Py.Ok (r, c')
                   /\ _runs c' = _runs st.1)
  /\ (forall now kill id0 r0,
        _runs st.1 !! id0 = Some r0 -> SimulationRun.status r0 <> RUNNING ->
        stop_simulation now kill st.1 id0 = Py.Ok (r0, st.1))
  /\ (forall now probe r0,
        SimulationRun.status r0 <> RUNNING -> _refresh_status now probe r0 = Py.Ok r0).
Proof.
  intros Hrun Hterm. split; [ | split; [ | split; [ | split ] ] ].
  - intros ops. revert st Hrun. induction ops as [ | o ops IH ]; intros st Hrun Hfresh.
    + exact Hrun.
    + destruct Hfresh as [Ho Hrest]. simpl. apply IH; [ | exact Hrest ].
      by apply step_keeps_terminal.
  - intros now kill. apply stop_not_running; [ done | by apply terminal_not_running ].
  - intros now probe. unfold get_run_status, _get_run. rewrite Hrun; simpl.
    rewrite refresh_not_running by (by apply terminal_not_running). simpl.
    eexists. split; [ reflexivity | ]. simpl. by apply insert_id.
  - intros now kill id0 r0. apply stop_not_running.
  - intros now probe r0. apply refresh_not_running.
Qed.

End Runs.

(** ** The theorems at concrete inputs *)

Lemma structured_round_trip_witness :
  ScenarioManager._active_scenarios bad_manager !! "id-1" = Some bad_scenario
  /\ exists path w' s' sm2',
      ScenarioManager.save_scenario_json (B := example_builtins) bad_manager
        (OS.mk ∅ ∅ []) "id-1" None = Py.Ok (path, w')
      /\ ScenarioManager.load_scenario_json (B := example_builtins)
           (ScenarioManager.mk "elsewhere" ∅) w' path = Py.Ok (s', sm2')
      /\ Scenario.platforms s' = Scenario.platforms bad_scenario.
Proof.
  assert (Hreg : ScenarioManager._active_scenarios bad_manager !! "id-1"
                 = Some bad_scenario) by reflexivity.
  split; [ exact Hreg | ].
  destruct (structured_round_trip (B := example_builtins) bad_manager
              (ScenarioManager.mk "elsewhere" ∅) (OS.mk ∅ ∅ []) "id-1" None
              bad_scenario Hreg)
    as (path & w' & s' & sm2' & Hsave & Hload & _ & _ & _ & _ & Hps & _).
  by exists path, w', s', sm2'.
Defined.

Lemma create_platform_unique_witness :
  ScenarioManager._active_scenarios bad_manager !! "id-1" = Some bad_scenario
  /\ EntityManager.create_platform bad_manager "id-1" "p1" "wsf_platform"
       (Py.PInt 0) (Py.PInt 0) (Py.PInt 0) None
     = Py.Raise (Py.ValueError "Platform 'p1' already exists in scenario 'alpha'.")
  /\ exists info sm' s',
      EntityManager.create_platform bad_manager "id-1" "p2" "wsf_platform"
        (Py.PInt 0) (Py.PInt 0) (Py.PInt 0) None = Py.Ok (info, sm')
      /\ ScenarioManager._active_scenarios sm' !! "id-1" = Some s'
      /\ length (Scenario.platforms s') = 3.
Proof.
  assert (Hreg : ScenarioManager._active_scenarios bad_manager !! "id-1"
                 = Some bad_scenario) by reflexivity.
  split; [ exact Hreg | ].
  split.
  - apply (create_platform_unique bad_manager "id-1" "p1" "wsf_platform"
             (Py.PInt 0) (Py.PInt 0) (Py.PInt 0) None bad_scenario Hreg).
    simpl. apply list_elem_of_here.
  - destruct (create_platform_unique bad_manager "id-1" "p2" "wsf_platform"
                (Py.PInt 0) (Py.PInt 0) (Py.PInt 0) None bad_scenario Hreg)
      as [_ Hfresh].
    destruct Hfresh as (info & sm' & s' & Hc & _ & Hl & _ & Hlen & _).
    + simpl. intros Hin. apply list_elem_of_In in Hin. simpl in Hin.
      destruct Hin as [ H | [ H | [] ] ]; discriminate H.
    + by exists info, sm', s'.
Defined.


Lemma load_without_scenario_id_witness :
  exists s sm',
    ScenarioManager.load_scenario_json (B := example_builtins) bad_manager
      anonymous_world "in/a.json" = Py.Ok (s, sm')
    /\ Scenario.scenario_id s = ""
    /\ ScenarioManager._active_scenarios sm' !! "" = Some s.
Proof.
  destruct (load_without_scenario_id (B := example_builtins) bad_manager
              anonymous_world "in/a.json" anonymous_document anonymous_scenario)
    as (s & sm' & Hload & Hid & Hreg & _).
  - reflexivity.
  - reflexivity.
  - reflexivity.
  - by exists s, sm'.
Defined.



Lemma process_failures_recorded_witness :
  exists run c' w',
    SimulationController.run_simulation (B := example_builtins) second_env
      live_controller live_world "id-1" None false = Py.Ok (run, c', w')
    /\ SimulationRun.status run = SimulationStatus.FAILED
    /\ SimulationRun.error_message run = "[Errno 8] Exec format error".
Proof.
  destruct (process_failures_recorded (B := example_builtins) live_controller live_world)
    as [Hrun _].
  destruct (Hrun second_env "id-1" None false bad_scenario eq_refl)
    as (run & c' & w' & Hok & _ & Hfail).
  destruct (Hfail "[Errno 8] Exec format error") as (Hst & Hmsg & _).
  - reflexivity.
  - discriminate.
  - reflexivity.
  - by right.
  - by exists run, c', w'.
Defined.

(** A run whose process is gone when [stop_simulation] signals it ends as
    [COMPLETED] with no error message, and a signal that fails otherwise
    raises. *)
Lemma stop_failure_counterexample :
  exists run c1 w1 run' c2,
    SimulationController.run_simulation (B := example_builtins) first_env
      live_controller live_world "id-1" None false = Py.Ok (run, c1, w1)
    /\ SimulationRun.status run = SimulationStatus.RUNNING
    /\ SimulationRun.pid run = Some 4242%Z
    /\ SimulationController.stop_simulation "t5" OS.ProcessLookupError c1 "run-1"
       = Py.Ok (run', c2)
    /\ SimulationRun.status run' = SimulationStatus.COMPLETED
    /\ SimulationRun.error_message run' = ""
    /\ SimulationController.stop_simulation "t5"
         (OS.KillRaises (Py.OSError "[Errno 1] Operation not permitted")) c1 "run-1"
       = Py.Raise (Py.OSError "[Errno 1] Operation not permitted").
Proof.
  do 5 eexists.
  repeat (split; [ vm_compute; reflexivity | ]).
  vm_compute; reflexivity.
Qed.

Lemma terminal_is_final_witness :
  SimulationController._runs after_dry_run.1 !! "run-1" = Some completed_run
  /\ SimulationController._runs
       (SimulationController.exec (B := example_builtins)
          [ SimulationController.Run second_env "id-1" None true;
            SimulationController.Stop "t4" OS.Delivered "run-1";
            SimulationController.Status "t5" OS.ProcessLookupError "run-1" ]
          after_dry_run).1 !! "run-1"
     = Some completed_run.
Proof.
  assert (Hrun : SimulationController._runs after_dry_run.1 !! "run-1"
                 = Some completed_run) by (vm_compute; reflexivity).
  split; [ exact Hrun | ].
  destruct (terminal_is_final (B := example_builtins) after_dry_run "run-1"
              completed_run Hrun eq_refl) as [Hseq _].
  apply Hseq. vm_compute. repeat split.
Defined.

(** * Further properties of the managers *)

(** ** Scenarios in memory *)

Section ScenarioRegistry.

Import ScenarioManager.

Lemma with_scenarios_same (sm : t) : with_scenarios (_active_scenarios sm) sm = sm.
Proof. by destruct sm. Qed.

(** X1. Creating a scenario under a non-empty name and an unused identifier
    registers exactly the scenario made of the arguments, with no platform,
    no parameter and no file path, and leaves every other entry alone;
    deleting it again returns [true] and gives back the manager from before
    the creation, on which the same deletion returns [false]. *)
Theorem create_get_delete (new_id name description : string)
    (duration_s time_step_s : Py.pynum) (sm : t) :
  name <> "" ->
  _active_scenarios sm !! new_id = None ->
  exists sm',
    let s := Scenario.mk name new_id description duration_s time_step_s [] [] None in
    create_scenario new_id sm name description duration_s time_step_s = Py.Ok (s, sm')
    /\ get_scenario sm' new_id = Py.Ok s
    /\ (forall id, id <> new_id ->
          _active_scenarios sm' !! id = _active_scenarios sm !! id)
    /\ delete_scenario sm' new_id = (true, sm)
    /\ delete_scenario sm new_id = (false, sm).
Proof.
  intros Hname Hfresh. unfold create_scenario.
  rewrite bool_decide_eq_false_2 by done.
  eexists. cbv zeta. split; [ reflexivity | ].
  split; [ unfold get_scenario, _get; simpl; by rewrite lookup_insert_eq | ].
  split; [ intros id Hne; simpl; by rewrite lookup_insert_ne | ].
  unfold delete_scenario; simpl. rewrite lookup_insert_eq, Hfresh.
  split; [ | done ].
  unfold with_scenarios; simpl.
  rewrite delete_insert_eq, (delete_id _ _ Hfresh). by destruct sm.
Qed.

Lemma validate_errors_nil {B : Py.Builtins} (s : Scenario.t) :
  errors (validate s) = []
  <-> Scenario.name s <> ""
      /\ Py.num_le0 (Scenario.duration_s s) = false
      /\ Py.num_le0 (Scenario.time_step_s s) = false
      /\ NoDup (map Platform.name (Scenario.platforms s)).
Proof.
  unfold validate; simpl. rewrite <- length_zero_iff_nil, !length_app.
  pose proof (has_duplicates_spec (map Platform.name (Scenario.platforms s))) as Hdup.
  destruct (has_duplicates _).
  - split; [ simpl; lia | ].
    intros (_ & _ & _ & Hnd). exfalso. by apply Hdup.
  - assert (Hnd : NoDup (map Platform.name (Scenario.platforms s))).
    { destruct (decide (NoDup (map Platform.name (Scenario.platforms s))))
        as [ | Hno ]; [ done | ].
      apply Hdup in Hno. discriminate Hno. }
    case_bool_decide as Hn;
      destruct (Py.num_le0 (Scenario.duration_s s)),
               (Py.num_le0 (Scenario.time_step_s s));
      simpl; split; try lia; try tauto;
      intros (H1 & H2 & H3 & _); congruence.
Qed.

(** X2. A scenario validates exactly when its name is not empty, neither
    its duration nor its time step is [<= 0], and its platform names are
    pairwise distinct; a duration or time step that is not a number passes
    as well, no comparison with it being true. *)
Theorem valid_iff {B : Py.Builtins} (s : Scenario.t) :
  (valid (validate s) = true
   <-> Scenario.name s <> ""
       /\ Py.num_le0 (Scenario.duration_s s) = false
       /\ Py.num_le0 (Scenario.time_step_s s) = false
       /\ NoDup (map Platform.name (Scenario.platforms s)))
  /\ Py.num_le0 (Py.PFloat PrimFloat.nan) = false
  /\ forall a, Py.num_gt (Py.PFloat PrimFloat.nan) (Py.PInt a) = false
                /\ Py.num_gt (Py.PInt a) (Py.PFloat PrimFloat.nan) = false.
Proof.
  split; [ | split; [ reflexivity | by split ] ].
  rewrite <- validate_errors_nil.
  unfold validate; simpl. rewrite Nat.eqb_eq. apply length_zero_iff_nil.
Qed.

End ScenarioRegistry.

(** ** Saving and loading *)

Section SaveLoad.
Context {B : Py.Builtins}.

Import ScenarioManager.

Lemma save_scenario_ok (sm : t) (w : OS.world) (id : string)
    (file_path : option string) (s : Scenario.t) :
  _active_scenarios sm !! id = Some s ->
  save_scenario sm w id file_path
  = let fp := default (default_path sm s ".afsim") file_path in
    Py.Ok (Py.path_str fp,
           with_scenarios
             (<[id := Scenario.with_file_path (Some (Py.path_str fp)) s]>
                (_active_scenarios sm)) sm,
           OS.write fp (OS.Text (Scenario.to_afsim s)) (OS.mkdir_p (Py.path_parent fp) w)).
Proof.
  intros Hreg. unfold save_scenario. by rewrite (get_registered _ _ _ Hreg).
Qed.

Lemma write_mkdir_twice (fp dir : string) (f : OS.file) (w : OS.world) :
  OS.write fp f (OS.mkdir_p dir (OS.write fp f (OS.mkdir_p dir w)))
  = OS.write fp f (OS.mkdir_p dir w).
Proof.
  unfold OS.write, OS.mkdir_p, OS.with_files; simpl.
  rewrite insert_insert_eq. f_equal.
  apply set_eq. intros x. rewrite !elem_of_union. tauto.
Qed.

(** X3. Saving a registered scenario a second time, to the same place,
    changes nothing: the call returns the same path and leaves the manager
    and the disk as the first save left them. *)
Theorem save_scenario_twice (sm : t) (w : OS.world) (id : string)
    (file_path : option string) (s : Scenario.t) :
  _active_scenarios sm !! id = Some s ->
  exists path sm1 w1,
    save_scenario sm w id file_path = Py.Ok (path, sm1, w1)
    /\ save_scenario sm1 w1 id file_path = Py.Ok (path, sm1, w1).
Proof.
  intros Hreg. rewrite (save_scenario_ok _ _ _ _ _ Hreg); cbv zeta.
  set (fp := default (default_path sm s ".afsim") file_path).
  set (s1 := Scenario.with_file_path (Some (Py.path_str fp)) s).
  eexists _, _, _. split; [ reflexivity | ].
  assert (Hreg1 : _active_scenarios
                    (with_scenarios (<[id := s1]> (_active_scenarios sm)) sm) !! id
                  = Some s1) by apply lookup_insert_eq.
  rewrite (save_scenario_ok _ _ _ _ _ Hreg1); cbv zeta.
  change (default_path (with_scenarios _ sm) s1 ".afsim")
    with (default_path sm s ".afsim"). fold fp.
  change (Scenario.to_afsim s1) with (Scenario.to_afsim s).
  rewrite write_mkdir_twice. unfold with_scenarios; simpl.
  by rewrite insert_insert_eq.
Qed.

(** X4. Two registered scenarios of one name share their default file:
    saving one and then the other returns the same path twice, and the file
    then holds the text of the second. *)
Theorem save_same_name_overwrites (sm : t) (w : OS.world) (id1 id2 : string)
    (s1 s2 : Scenario.t) :
  _active_scenarios sm !! id1 = Some s1 ->
  _active_scenarios sm !! id2 = Some s2 ->
  id1 <> id2 ->
  Scenario.name s1 = Scenario.name s2 ->
  exists path sm1 w1 sm2 w2,
    save_scenario sm w id1 None = Py.Ok (path, sm1, w1)
    /\ save_scenario sm1 w1 id2 None = Py.Ok (path, sm2, w2)
    /\ OS.files w1 !! path = Some (OS.Text (Scenario.to_afsim s1))
    /\ OS.files w2 !! path = Some (OS.Text (Scenario.to_afsim s2)).
Proof.
  intros Hreg1 Hreg2 Hne Hname.
  rewrite (save_scenario_ok _ _ _ _ _ Hreg1); cbv zeta.
  eexists _, _, _, _, _. split; [ reflexivity | ].
  assert (Hreg2' : _active_scenarios
                     (with_scenarios
                        (<[id1 := Scenario.with_file_path
                                    (Some (Py.path_str (default_path sm s1 ".afsim"))) s1]>
                           (_active_scenarios sm)) sm) !! id2 = Some s2).
  { simpl. by rewrite lookup_insert_ne. }
  rewrite (save_scenario_ok _ _ _ _ _ Hreg2'); cbv zeta. simpl.
  unfold default_path; simpl. rewrite Hname.
  split; [ reflexivity | ].
  split; apply lookup_insert_eq.
Qed.

Context {T : Py.TextBuiltins}.


End SaveLoad.

(** ** Decoding the structured form *)

Section Decoding.
Context {B : Py.Builtins}.

Import ScenarioManager.

(** X6. Absent fields are defaulted, unknown ones ignored: an object that
    has a string under [name] and none of the other six keys decodes to the
    scenario of that name with empty identifier and description, duration
    [3600.0], time step [1.0], no platforms and no parameters; a platform
    object with only a [name] gets the type [wsf_platform], the position
    zero, and neither components nor parameters. *)
Theorem decode_defaults (d : Py.pydict) (n : string) :
  Py.dict_get "name" d = Some (Py.JStr n) ->
  (Py.dict_get "scenario_id" d = None
   /\ Py.dict_get "description" d = None
   /\ Py.dict_get "duration_s" d = None
   /\ Py.dict_get "time_step_s" d = None
   /\ Py.dict_get "parameters" d = None
   /\ Py.dict_get "platforms" d = None ->
   _scenario_from_dict (Py.JObj d)
   = Py.Ok (Scenario.mk n "" "" default_duration_s default_time_step_s [] [] None))
  /\ (Py.dict_get "platform_type" d = None
      /\ Py.dict_get "position" d = None
      /\ Py.dict_get "parameters" d = None
      /\ Py.dict_get "components" d = None ->
      platform_from_dict (Py.JObj d)
      = Py.Ok (Platform.mk n default_platform_type Position.default [] [])).
Proof.
  intros Hname. split.
  - intros (H1 & H2 & H3 & H4 & H5 & H6).
    unfold _scenario_from_dict, get_or, subscript.
    by rewrite Hname, H1, H2, H3, H4, H5, H6.
  - intros (H1 & H2 & H3 & H4).
    unfold platform_from_dict, get_or, subscript.
    by rewrite Hname, H1, H2, H3, H4.
Qed.

(** X7. How loading a structured file fails: a path that is not on the
    disk raises [FileNotFoundError]; a file whose document is not an object
    raises [AttributeError]; an object without [platforms] and without
    [name] raises [KeyError] for [name]; a platform entry without [name]
    makes the whole load raise that [KeyError] as well. *)
Theorem load_scenario_json_failures (sm : t) (w : OS.world) (file_path : string) :
  (OS.exists_ w file_path = false ->
   load_scenario_json sm w file_path
   = Py.Raise (Py.FileNotFoundError ("Scenario JSON file not found: " ++ file_path)))
  /\ (forall data,
        OS.files w !! Py.path_str file_path = Some (OS.Json data) ->
        (forall d, data <> Py.JObj d) ->
        load_scenario_json sm w file_path = Py.Raise Py.AttributeError)
  /\ (forall d,
        OS.files w !! Py.path_str file_path = Some (OS.Json (Py.JObj d)) ->
        Py.dict_get "platforms" d = None ->
        Py.dict_get "name" d = None ->
        load_scenario_json sm w file_path = Py.Raise (Py.KeyError "name"))
  /\ (forall d pd rest,
        OS.files w !! Py.path_str file_path = Some (OS.Json (Py.JObj d)) ->
        Py.dict_get "platforms" d = Some (Py.JArr (Py.JObj pd :: rest)) ->
        Py.dict_get "position" pd = None ->
        Py.dict_get "components" pd = None ->
        Py.dict_get "name" pd = None ->
        load_scenario_json sm w file_path = Py.Raise (Py.KeyError "name")).
Proof.
  assert (Hex : forall f, OS.files w !! Py.path_str file_path = Some f ->
                          OS.exists_ w file_path = true).
  { intros f Hf. unfold OS.exists_. by rewrite Hf, bool_decide_eq_true_2. }
  split; [ | split; [ | split ] ].
  - intros Hno. unfold load_scenario_json. by rewrite Hno.
  - intros data Hfile Hobj. unfold load_scenario_json.
    rewrite (Hex _ Hfile), Hfile; simpl.
    unfold _scenario_from_dict, get_or.
    destruct data; try reflexivity. by destruct (Hobj kvs).
  - intros d Hfile Hps Hname. unfold load_scenario_json.
    rewrite (Hex _ Hfile), Hfile; simpl.
    unfold _scenario_from_dict, get_or, subscript. by rewrite Hps, Hname.
  - intros d pd rest Hfile Hps Hpos Hcomps Hname. unfold load_scenario_json.
    rewrite (Hex _ Hfile), Hfile; simpl.
    unfold _scenario_from_dict, get_or. rewrite Hps; simpl.
    unfold platform_from_dict, get_or, subscript.
    by rewrite Hpos, Hcomps, Hname.
Qed.

End Decoding.

(** ** Platforms and components *)

Section Entities.

Import EntityManager.

Lemma find_platform_app_fresh (n : string) (ps : list Platform.t) (p : Platform.t) :
  n ∉ map Platform.name ps -> Platform.name p = n ->
  find_platform n (ps ++ [ p ])%list = Some p.
Proof.
  intros Hfresh Hp. induction ps as [ | q ps IH ]; simpl.
  - by rewrite bool_decide_eq_true_2.
  - simpl in Hfresh. apply not_elem_of_cons in Hfresh as [Hq Hps].
    rewrite bool_decide_eq_false_2 by congruence. by apply IH.
Qed.

Lemma filter_app_fresh (n : string) (ps : list Platform.t) (p : Platform.t) :
  n ∉ map Platform.name ps -> Platform.name p = n ->
  filter (fun q => Platform.name q ≠ n) (ps ++ [ p ])%list = ps.
Proof.
  intros Hfresh Hp. rewrite filter_app, filter_cons.
  destruct (decide (Platform.name p ≠ n)) as [ Hne | _ ]; [ done | ].
  rewrite filter_nil, app_nil_r.
  apply (filter_no_match (fun q => Platform.name q = n)).
  intros q Hq Hname. apply Hfresh, elem_of_names. eauto.
Qed.

Lemma store_store (sm : ScenarioManager.t) (id : string) (s s' : Scenario.t) :
  store (store sm id s') id s = store sm id s.
Proof. unfold store; simpl. by rewrite insert_insert_eq. Qed.

Lemma store_same (sm : ScenarioManager.t) (id : string) (s : Scenario.t) :
  ScenarioManager._active_scenarios sm !! id = Some s -> store sm id s = sm.
Proof.
  intros Hreg. unfold store. rewrite (insert_id _ _ _ Hreg).
  apply with_scenarios_same.
Qed.

(** X8. A platform created under a name the scenario does not have can be
    read back: [get_platform] returns the summary [create_platform]
    returned, which shows the arguments and no component, [list_platforms]
    ends with it, and deleting the platform again returns [true] and gives
    back the manager from before the creation. *)
Theorem create_platform_round_trip (sm : ScenarioManager.t) (id name ptype : string)
    (lat lon alt : Py.pynum) (params : option Py.pydict) (s : Scenario.t) :
  ScenarioManager._active_scenarios sm !! id = Some s ->
  name ∉ map Platform.name (Scenario.platforms s) ->
  exists sm1,
    let info :=
      mk_platform_info name ptype (Position.mk lat lon alt) 0 (Py.dict_or_empty params) in
    create_platform sm id name ptype lat lon alt params = Py.Ok (info, sm1)
    /\ get_platform sm1 id name = Py.Ok info
    /\ list_platforms sm1 id
       = Py.Ok (map _platform_info (Scenario.platforms s) ++ [ info ])%list
    /\ delete_platform sm1 id name = Py.Ok (true, sm).
Proof.
  intros Hreg Hfresh.
  unfold create_platform, _check_unique_platform.
  rewrite (get_scenario_registered _ _ _ Hreg); simpl.
  rewrite bool_decide_eq_false_2 by (by rewrite elem_of_list_to_set). simpl.
  set (p := Platform.mk name ptype (Position.mk lat lon alt) [] (Py.dict_or_empty params)).
  set (s1 := Scenario.with_platforms (Scenario.platforms s ++ [ p ])%list s).
  eexists. split; [ reflexivity | ].
  pose proof (store_lookup sm id s1) as Hreg1.
  split.
  { unfold get_platform, _get_platform.
    rewrite (get_scenario_registered _ _ _ Hreg1); simpl.
    by rewrite (find_platform_app_fresh name _ p). }
  split.
  { unfold list_platforms. rewrite (get_scenario_registered _ _ _ Hreg1); simpl.
    by rewrite map_app. }
  unfold delete_platform. rewrite (get_scenario_registered _ _ _ Hreg1); simpl.
  rewrite (filter_app_fresh name _ p) by done.
  rewrite length_app; simpl.
  replace (length (Scenario.platforms s) <? length (Scenario.platforms s) + 1)%nat
    with true by (symmetry; apply Nat.ltb_lt; lia).
  rewrite store_store.
  replace (Scenario.with_platforms (Scenario.platforms s) s1) with s
    by (by destruct s).
  by rewrite store_same.
Qed.

Lemma update_platform_names (n : string) (f : Platform.t -> Platform.t)
    (ps : list Platform.t) :
  (forall p, Platform.name (f p) = Platform.name p) ->
  map Platform.name (update_platform n f ps) = map Platform.name ps.
Proof.
  intros Hf. induction ps as [ | p ps IH ]; [ done | ].
  simpl. case_bool_decide; simpl; [ by rewrite Hf | by rewrite IH ].
Qed.

Lemma update_platform_same (n : string) (f : Platform.t -> Platform.t)
    (ps : list Platform.t) (p : Platform.t) :
  find_platform n ps = Some p -> f p = p -> update_platform n f ps = ps.
Proof.
  intros Hfind Hf. induction ps as [ | q ps IH ]; [ done | ].
  simpl in *. case_bool_decide.
  - injection Hfind as ->. by rewrite Hf.
  - by rewrite IH.
Qed.


Lemma names_filter_NoDup (P : Platform.t -> Prop) `{!forall x, Decision (P x)}
    (ps : list Platform.t) :
  NoDup (map Platform.name ps) -> NoDup (map Platform.name (filter P ps)).
Proof.
  induction ps as [ | p ps IH ]; [ done | ].
  simpl. rewrite NoDup_cons. intros [Hp Hps]. rewrite filter_cons.
  destruct (decide (P p)); [ | by apply IH ].
  simpl. apply NoDup_cons. split; [ | by apply IH ].
  intros Hin. apply Hp. apply elem_of_names in Hin as (q & Hq & Hname).
  apply list_elem_of_filter in Hq as [_ Hq]. apply elem_of_names. eauto.
Qed.

Lemma set_components_mutate (sm : ScenarioManager.t) (id pname : string)
    (cs : list Component.t) :
  set_components sm id pname cs
  = mutate_platform sm id pname (Platform.with_components cs).
Proof. reflexivity. Qed.

(** The property the sequences keep. *)
Lemma step_well_formed (o : op) (sm : ScenarioManager.t) :
  (forall id s, ScenarioManager._active_scenarios sm !! id = Some s ->
                Scenario.scenario_id s = id /\ Scenario.name s <> ""
                /\ NoDup (map Platform.name (Scenario.platforms s))) ->
  forall id s, ScenarioManager._active_scenarios (step o sm) !! id = Some s ->
               Scenario.scenario_id s = id /\ Scenario.name s <> ""
               /\ NoDup (map Platform.name (Scenario.platforms s)).
Proof.
  intros Hwf.
  assert (Hstore : forall sid s0 ps,
             ScenarioManager._active_scenarios sm !! sid = Some s0 ->
             NoDup (map Platform.name ps) ->
             forall id s,
               ScenarioManager._active_scenarios
                 (store sm sid (Scenario.with_platforms ps s0)) !! id = Some s ->
               Scenario.scenario_id s = id /\ Scenario.name s <> ""
               /\ NoDup (map Platform.name (Scenario.platforms s))).
  { intros sid s0 ps Hs0 Hnd id s Hs. destruct (decide (sid = id)) as [ -> | Hne ].
    - rewrite store_lookup in Hs. injection Hs as <-.
      destruct (Hwf _ _ Hs0) as (Hid & Hname & _). by destruct s0.
    - rewrite store_lookup_ne in Hs by done. by apply Hwf. }
  assert (Hmut : forall sid pname f,
             (forall p, Platform.name (f p) = Platform.name p) ->
             forall id s,
               ScenarioManager._active_scenarios (mutate_platform sm sid pname f) !! id
               = Some s ->
               Scenario.scenario_id s = id /\ Scenario.name s <> ""
               /\ NoDup (map Platform.name (Scenario.platforms s))).
  { intros sid pname f Hf id s. unfold mutate_platform.
    destruct (ScenarioManager._active_scenarios sm !! sid) as [ s0 | ] eqn:Hs0;
      [ | by apply Hwf ].
    apply (Hstore _ _ _ Hs0). rewrite update_platform_names by done.
    by apply (Hwf _ _ Hs0). }
  assert (Hadd : forall A sid pname (k : Platform.t -> A * list Component.t) id s,
             ScenarioManager._active_scenarios
               (after (Py.bind (_get_platform sm sid pname) (fun platform =>
                         Py.Ok ((k platform).1,
                                set_components sm sid pname (k platform).2))) sm) !! id
             = Some s ->
             Scenario.scenario_id s = id /\ Scenario.name s <> ""
             /\ NoDup (map Platform.name (Scenario.platforms s))).
  { intros A sid pname k id s.
    destruct (_get_platform sm sid pname) as [ p | ]; simpl; [ | by apply Hwf ].
    rewrite set_components_mutate. by apply Hmut. }
  destruct o; simpl.
  - unfold ScenarioManager.create_scenario. case_bool_decide as Hn; simpl;
      [ by apply Hwf | ].
    intros id s Hs. destruct (decide (new_id = id)) as [ -> | Hne ].
    + rewrite lookup_insert_eq in Hs. injection Hs as <-. simpl.
      repeat split; [ done | constructor ].
    + rewrite lookup_insert_ne in Hs by done. by apply Hwf.
  - unfold ScenarioManager.delete_scenario.
    destruct (ScenarioManager._active_scenarios sm !! scenario_id) eqn:Hs0; simpl;
      [ | by apply Hwf ].
    intros id s Hs. destruct (decide (scenario_id = id)) as [ -> | Hne ].
    + by rewrite lookup_delete_eq in Hs.
    + rewrite lookup_delete_ne in Hs by done. by apply Hwf.
  - unfold create_platform, _check_unique_platform.
    destruct (ScenarioManager._active_scenarios sm !! scenario_id) as [ s0 | ] eqn:Hs0.
    + rewrite (get_scenario_registered _ _ _ Hs0); simpl.
      case_bool_decide as Hin; simpl; [ by apply Hwf | ].
      apply (Hstore _ _ _ Hs0). rewrite map_app; simpl.
      apply NoDup_app. split; [ by apply (Hwf _ _ Hs0) | ].
      split; [ | apply NoDup_singleton ].
      intros x Hx Hx'. apply list_elem_of_singleton in Hx'. subst x.
      apply Hin. by apply elem_of_list_to_set.
    + unfold ScenarioManager.get_scenario, ScenarioManager._get. rewrite Hs0.
      by apply Hwf.
  - unfold delete_platform.
    destruct (ScenarioManager._active_scenarios sm !! scenario_id) as [ s0 | ] eqn:Hs0.
    + rewrite (get_scenario_registered _ _ _ Hs0); simpl.
      apply (Hstore _ _ _ Hs0). apply names_filter_NoDup. by apply (Hwf _ _ Hs0).
    + unfold ScenarioManager.get_scenario, ScenarioManager._get. rewrite Hs0.
      by apply Hwf.
  - unfold modify_platform.
    destruct (_get_platform sm scenario_id platform_name) as [ p | ]; simpl;
      [ | by apply Hwf ].
    by apply Hmut.
  - apply (Hadd _ scenario_id platform_name
             (fun platform =>
                (_component_info
                   (Component.mk (Py.str_or mover_name (platform_name ++ "_mover"))
                      mover_type (Py.dict_or_empty parameters)),
                 (Platform.components platform
                  ++ [ Component.mk (Py.str_or mover_name (platform_name ++ "_mover"))
                         mover_type (Py.dict_or_empty parameters) ])%list))).
  - apply (Hadd _ scenario_id platform_name
             (fun platform =>
                (_component_info
                   (Component.mk (Py.str_or sensor_name (platform_name ++ "_sensor"))
                      sensor_type (Py.dict_or_empty parameters)),
                 (Platform.components platform
                  ++ [ Component.mk (Py.str_or sensor_name (platform_name ++ "_sensor"))
                         sensor_type (Py.dict_or_empty parameters) ])%list))).
  - apply (Hadd _ scenario_id platform_name
             (fun platform =>
                (_component_info
                   (Component.mk (Py.str_or weapon_name (platform_name ++ "_weapon"))
                      weapon_type (Py.dict_or_empty parameters)),
                 (Platform.components platform
                  ++ [ Component.mk (Py.str_or weapon_name (platform_name ++ "_weapon"))
                         weapon_type (Py.dict_or_empty parameters) ])%list))).
  - apply (Hadd _ scenario_id platform_name
             (fun platform =>
                ((length (filter (fun c => Component.name c ≠ component_name)
                            (Platform.components platform))
                  <? length (Platform.components platform))%nat,
                 filter (fun c => Component.name c ≠ component_name)
                   (Platform.components platform)))).
Qed.

(** X9. Whatever sequence of scenario creations and deletions and of
    entity manager calls is applied to an empty manager, every scenario it
    holds is registered under its own identifier, has a non-empty name and
    has pairwise distinct platform names; so its validation depends on the
    duration and the time step alone. *)
Theorem exec_well_formed {B : Py.Builtins} (ops : list op) (scenarios_dir id : string)
    (s : Scenario.t) :
  ScenarioManager._active_scenarios (exec ops (ScenarioManager.mk scenarios_dir ∅)) !! id
  = Some s ->
  Scenario.scenario_id s = id
  /\ Scenario.name s <> ""
  /\ NoDup (map Platform.name (Scenario.platforms s))
  /\ (ScenarioManager.valid (ScenarioManager.validate s) = true
      <-> Py.num_le0 (Scenario.duration_s s) = false
          /\ Py.num_le0 (Scenario.time_step_s s) = false).
Proof.
  intros Hs.
  assert (Hwf : Scenario.scenario_id s = id /\ Scenario.name s <> ""
                /\ NoDup (map Platform.name (Scenario.platforms s))).
  { revert id s Hs.
    assert (Hinit : forall id s,
               ScenarioManager._active_scenarios (ScenarioManager.mk scenarios_dir ∅) !! id
               = Some s ->
               Scenario.scenario_id s = id /\ Scenario.name s <> ""
               /\ NoDup (map Platform.name (Scenario.platforms s))).
    { intros id s Hs. simpl in Hs. by rewrite lookup_empty in Hs. }
    revert Hinit. generalize (ScenarioManager.mk scenarios_dir ∅).
    induction ops as [ | o ops IH ]; intros sm Hsm; [ exact Hsm | ].
    simpl. apply IH. by apply step_well_formed. }
  destruct Hwf as (Hid & Hname & Hnd).
  split; [ exact Hid | ]. split; [ exact Hname | ]. split; [ exact Hnd | ].
  assert (Hv : ScenarioManager.valid (ScenarioManager.validate s) = true
               <-> ScenarioManager.errors (ScenarioManager.validate s) = []).
  { unfold ScenarioManager.validate; simpl. rewrite Nat.eqb_eq.
    apply length_zero_iff_nil. }
  rewrite Hv, validate_errors_nil. tauto.
Qed.






Lemma mutate_platform_lookup (sm : ScenarioManager.t) (id pname : string)
    (f : Platform.t -> Platform.t) (s : Scenario.t) :
  ScenarioManager._active_scenarios sm !! id = Some s ->
  ScenarioManager._active_scenarios (mutate_platform sm id pname f) !! id
  = Some (Scenario.with_platforms
            (update_platform pname f (Scenario.platforms s)) s).
Proof. intros Hreg. unfold mutate_platform. rewrite Hreg. apply store_lookup. Qed.

Lemma get_platform_found (sm : ScenarioManager.t) (id pname : string)
    (s : Scenario.t) (p : Platform.t) :
  ScenarioManager._active_scenarios sm !! id = Some s ->
  find_platform pname (Scenario.platforms s) = Some p ->
  _get_platform sm id pname = Py.Ok p.
Proof.
  intros Hreg Hfind. unfold _get_platform.
  rewrite (get_scenario_registered _ _ _ Hreg); simpl. by rewrite Hfind.
Qed.


Lemma list_components_after_set (sm : ScenarioManager.t) (id pname : string)
    (s : Scenario.t) (p : Platform.t) (cs : list Component.t) :
  ScenarioManager._active_scenarios sm !! id = Some s ->
  find_platform pname (Scenario.platforms s) = Some p ->
  list_components (set_components sm id pname cs) id pname
  = Py.Ok (map _component_info cs).
Proof.
  intros Hreg Hfind. unfold list_components.
  rewrite (get_platform_found _ _ _
             (Scenario.with_platforms
                (update_platform pname (Platform.with_components cs)
                   (Scenario.platforms s)) s)
             (Platform.with_components cs p)); [ done | | ].
  - rewrite set_components_mutate. by apply mutate_platform_lookup.
  - simpl. by rewrite find_platform_update, Hfind.
Qed.

Lemma names_after_set (sm : ScenarioManager.t) (id pname : string)
    (s : Scenario.t) (cs : list Component.t) :
  ScenarioManager._active_scenarios sm !! id = Some s ->
  exists s',
    ScenarioManager._active_scenarios (set_components sm id pname cs) !! id = Some s'
    /\ map Platform.name (Scenario.platforms s') = map Platform.name (Scenario.platforms s).
Proof.
  intros Hreg. eexists. split.
  - rewrite set_components_mutate. by apply mutate_platform_lookup.
  - simpl. by apply update_platform_names.
Qed.

Ltac add_proof Hreg Hfind :=
  rewrite (get_platform_found _ _ _ _ _ Hreg Hfind); simpl;
  eexists; split; [ reflexivity | ];
  split; [ rewrite (list_components_after_set _ _ _ _ _ _ Hreg Hfind);
           by rewrite map_app
         | by apply names_after_set ].

(** X11. On a platform the scenario has, [add_mover], [add_sensor] and
    [add_weapon] always succeed, whatever components the platform already
    has: the component gets the given name, or the platform name followed
    by [_mover], [_sensor] or [_weapon] when none or an empty one is given;
    it is appended after the components of the platform, and the platforms
    of the scenario keep their names and order. *)
Theorem add_component_appends (sm : ScenarioManager.t) (id pname : string)
    (s : Scenario.t) (p : Platform.t) (kind : string) (cname : option string)
    (params : option Py.pydict) :
  ScenarioManager._active_scenarios sm !! id = Some s ->
  find_platform pname (Scenario.platforms s) = Some p ->
  let added suffix :=
    mk_component_info (Py.str_or cname (pname ++ suffix)) kind
      (Py.dict_or_empty params) in
  let appended suffix (r : Py.result (component_info * ScenarioManager.t)) :=
    exists sm',
      r = Py.Ok (added suffix, sm')
      /\ list_components sm' id pname
         = Py.Ok (map _component_info (Platform.components p) ++ [ added suffix ])%list
      /\ exists s',
           ScenarioManager._active_scenarios sm' !! id = Some s'
           /\ map Platform.name (Scenario.platforms s')
              = map Platform.name (Scenario.platforms s) in
  appended "_mover" (add_mover sm id pname kind cname params)
  /\ appended "_sensor" (add_sensor sm id pname kind cname params)
  /\ appended "_weapon" (add_weapon sm id pname kind cname params).
Proof.
  intros Hreg Hfind added appended. unfold appended, added.
  split; [ | split ].
  - unfold add_mover. add_proof Hreg Hfind.
  - unfold add_sensor. add_proof Hreg Hfind.
  - unfold add_weapon. add_proof Hreg Hfind.
Qed.

Lemma filter_components_app_fresh (n : string) (cs : list Component.t)
    (c : Component.t) :
  n ∉ map Component.name cs -> Component.name c = n ->
  filter (fun x => Component.name x ≠ n) (cs ++ [ c ])%list = cs.
Proof.
  intros Hfresh Hc. rewrite filter_app, filter_cons.
  destruct (decide (Component.name c ≠ n)) as [ Hne | _ ]; [ done | ].
  rewrite filter_nil, app_nil_r.
  apply (filter_no_match (fun x => Component.name x = n)).
  intros x Hx Hname. apply Hfresh, elem_of_names. eauto.
Qed.

Lemma update_platform_twice (n : string) (f g : Platform.t -> Platform.t)
    (ps : list Platform.t) :
  (forall q, Platform.name (f q) = Platform.name q) ->
  update_platform n g (update_platform n f ps)
  = update_platform n (fun q => g (f q)) ps.
Proof.
  intros Hf. induction ps as [ | q ps IH ]; [ done | ].
  simpl. case_bool_decide as Hq; simpl.
  - by rewrite Hf, bool_decide_eq_true_2.
  - by rewrite bool_decide_eq_false_2, IH.
Qed.

Lemma mutate_platform_twice (sm : ScenarioManager.t) (id n : string)
    (f g : Platform.t -> Platform.t) :
  (forall q, Platform.name (f q) = Platform.name q) ->
  mutate_platform (mutate_platform sm id n f) id n g
  = mutate_platform sm id n (fun q => g (f q)).
Proof.
  intros Hf. unfold mutate_platform.
  destruct (ScenarioManager._active_scenarios sm !! id) as [ s | ] eqn:Hreg.
  - rewrite store_lookup, store_store. simpl.
    by rewrite update_platform_twice.
  - by rewrite Hreg.
Qed.

Lemma mutate_platform_same (sm : ScenarioManager.t) (id n : string)
    (h : Platform.t -> Platform.t) (s : Scenario.t) (p : Platform.t) :
  ScenarioManager._active_scenarios sm !! id = Some s ->
  find_platform n (Scenario.platforms s) = Some p ->
  h p = p ->
  mutate_platform sm id n h = sm.
Proof.
  intros Hreg Hfind Hh. unfold mutate_platform. rewrite Hreg.
  rewrite (update_platform_same _ _ _ _ Hfind Hh), with_platforms_same.
  by apply store_same.
Qed.

Lemma remove_after_append (sm : ScenarioManager.t) (id pname : string)
    (s : Scenario.t) (p : Platform.t) (c : Component.t) :
  ScenarioManager._active_scenarios sm !! id = Some s ->
  find_platform pname (Scenario.platforms s) = Some p ->
  Component.name c ∉ map Component.name (Platform.components p) ->
  remove_component
    (set_components sm id pname (Platform.components p ++ [ c ])%list)
    id pname (Component.name c)
  = Py.Ok (true, sm).
Proof.
  intros Hreg Hfind Hfresh. unfold remove_component.
  set (cs := (Platform.components p ++ [ c ])%list).
  rewrite (get_platform_found _ _ _
             (Scenario.with_platforms
                (update_platform pname (Platform.with_components cs)
                   (Scenario.platforms s)) s)
             (Platform.with_components cs p)).
  - simpl. subst cs. rewrite filter_components_app_fresh by done.
    rewrite length_app; simpl.
    replace (length (Platform.components p) <? length (Platform.components p) + 1)%nat
      with true by (symmetry; apply Nat.ltb_lt; lia).
    do 2 f_equal. rewrite !set_components_mutate.
    rewrite mutate_platform_twice by done.
    apply (mutate_platform_same _ _ _ _ _ _ Hreg Hfind). by destruct p.
  - rewrite set_components_mutate. by apply mutate_platform_lookup.
  - simpl. by rewrite find_platform_update, Hfind.
Qed.

(** X12. A component added under a name the platform does not have yet
    is undone by one [remove_component] of that name, which returns [true]
    and gives back the manager from before the addition. The name may be
    the given one or the default one. *)
Theorem add_then_remove (sm : ScenarioManager.t) (id pname : string)
    (s : Scenario.t) (p : Platform.t) (kind : string) (cname : option string)
    (params : option Py.pydict) :
  ScenarioManager._active_scenarios sm !! id = Some s ->
  find_platform pname (Scenario.platforms s) = Some p ->
  let undone suffix (r : Py.result (component_info * ScenarioManager.t)) :=
    Py.str_or cname (pname ++ suffix) ∉ map Component.name (Platform.components p) ->
    exists info sm',
      r = Py.Ok (info, sm')
      /\ remove_component sm' id pname (cinfo_name info) = Py.Ok (true, sm) in
  undone "_mover" (add_mover sm id pname kind cname params)
  /\ undone "_sensor" (add_sensor sm id pname kind cname params)
  /\ undone "_weapon" (add_weapon sm id pname kind cname params).
Proof.
  intros Hreg Hfind undone. unfold undone.
  split; [ | split ]; intros Hfresh.
  - unfold add_mover. rewrite (get_platform_found _ _ _ _ _ Hreg Hfind); simpl.
    eexists _, _. split; [ reflexivity | ]. simpl.
    by apply (remove_after_append _ _ _ _ _
                (Component.mk (Py.str_or cname (pname ++ "_mover")) kind
                   (Py.dict_or_empty params)) Hreg Hfind).
  - unfold add_sensor. rewrite (get_platform_found _ _ _ _ _ Hreg Hfind); simpl.
    eexists _, _. split; [ reflexivity | ]. simpl.
    by apply (remove_after_append _ _ _ _ _
                (Component.mk (Py.str_or cname (pname ++ "_sensor")) kind
                   (Py.dict_or_empty params)) Hreg Hfind).
  - unfold add_weapon. rewrite (get_platform_found _ _ _ _ _ Hreg Hfind); simpl.
    eexists _, _. split; [ reflexivity | ]. simpl.
    by apply (remove_after_append _ _ _ _ _
                (Component.mk (Py.str_or cname (pname ++ "_weapon")) kind
                   (Py.dict_or_empty params)) Hreg Hfind).
Qed.

(** X13. The lookups the entity manager starts with fail the same way in
    every operation: with an unknown scenario identifier each of them
    raises the [KeyError] of the scenario manager, and on a registered
    scenario each operation on a platform raises the [KeyError] naming
    platform and scenario when no platform has the name. *)
Theorem entity_lookup_failures (sm : ScenarioManager.t) (id pname : string) :
  (ScenarioManager._active_scenarios sm !! id = None ->
   let e := Py.KeyError ("Scenario '" ++ id ++ "' not found.") in
   (forall ptype lat lon alt params,
       create_platform sm id pname ptype lat lon alt params = Py.Raise e)
   /\ delete_platform sm id pname = Py.Raise e
   /\ list_platforms sm id = Py.Raise e
   /\ _get_platform sm id pname = Py.Raise e)
  /\ (forall e,
        _get_platform sm id pname = Py.Raise e ->
        get_platform sm id pname = Py.Raise e
        /\ list_components sm id pname = Py.Raise e
        /\ (forall lat lon alt ptype params,
              modify_platform sm id pname lat lon alt ptype params = Py.Raise e)
        /\ (forall kind cname params,
              add_mover sm id pname kind cname params = Py.Raise e
              /\ add_sensor sm id pname kind cname params = Py.Raise e
              /\ add_weapon sm id pname kind cname params = Py.Raise e)
        /\ (forall cname, remove_component sm id pname cname = Py.Raise e))
  /\ (forall s,
        ScenarioManager._active_scenarios sm !! id = Some s ->
        pname ∉ map Platform.name (Scenario.platforms s) ->
        _get_platform sm id pname
        = Py.Raise (Py.KeyError ("Platform '" ++ pname ++ "' not found in scenario '"
                                 ++ id ++ "'."))).
Proof.
  split; [ | split ].
  - intros Hreg e.
    unfold create_platform, delete_platform, list_platforms, _get_platform,
      ScenarioManager.get_scenario, ScenarioManager._get.
    by rewrite Hreg.
  - intros e He.
    unfold get_platform, list_components, modify_platform, add_mover, add_sensor,
      add_weapon, remove_component.
    by rewrite He.
  - intros s Hreg Hfresh. unfold _get_platform.
    rewrite (get_scenario_registered _ _ _ Hreg); simpl.
    apply find_platform_None in Hfresh. by rewrite Hfresh.
Qed.

End Entities.

(** * Further properties of the run controller *)

Section MoreRuns.
Context {B : Py.Builtins}.

Import SimulationStatus SimulationController.

(** X14. For a registered scenario, a run that is not a dry run, with a
    binary that exists when the controller looks and a process that
    starts, returns a run that is [RUNNING] with the process id, a start
    time, no end time and no error message; exactly one process is
    spawned, with the binary, the scenario file and the extra arguments as
    command, the output directory of the run as working directory and the
    log file of the run, created empty, as output. *)
Theorem spawn_records_process (e : run_env) (c : t) (w : OS.world) (id : string)
    (extra : option (list string)) (s : Scenario.t) (pid : Z) :
  ScenarioManager._active_scenarios (_sm c) !! id = Some s ->
  _afsim_binary c <> "" ->
  OS.exists_ (world_at_check c w s) (_afsim_binary c) = true ->
  spawn e = OS.Spawned pid ->
  exists run c' w',
    run_simulation e c w id extra false = Py.Ok (run, c', w')
    /\ _runs c' !! new_run_id e = Some run
    /\ SimulationRun.status run = RUNNING
    /\ SimulationRun.pid run = Some pid
    /\ SimulationRun.start_time run = Some (now1 e)
    /\ SimulationRun.end_time run = None
    /\ SimulationRun.error_message run = ""
    /\ SimulationRun.output_dir run = Py.path_join (_output_dir c) (Scenario.name s)
    /\ SimulationRun.log_file run
       = Py.path_join (SimulationRun.output_dir run) "simulation.log"
    /\ OS.spawned w'
       = (OS.spawned w
          ++ [ OS.mk_launch
                 ([ _afsim_binary c; SimulationRun.scenario_file run ]
                  ++ default [] extra)
                 (SimulationRun.output_dir run) (SimulationRun.log_file run) ])%list
    /\ OS.files w' !! Py.path_str (SimulationRun.log_file run) = Some (OS.Text "").
Proof.
  intros Hreg Hbin Hex Hspawn. unfold run_simulation.
  rewrite (get_scenario_registered _ _ _ Hreg); simpl.
  rewrite (save_scenario_registered _ _ _ _ Hreg); simpl.
  rewrite (bool_decide_eq_false_2 _ Hbin).
  unfold world_at_check in Hex. rewrite Hex, Hspawn. simpl.
  eexists _, _, _. split; [ reflexivity | ].
  split; [ apply lookup_insert_eq | ].
  do 8 (split; [ reflexivity | ]). simpl. apply lookup_insert_eq.
Qed.

(** X15. Stopping a run that is [RUNNING]: when the signal is delivered, or
    the run has no process id, the run becomes [STOPPED]; when the process
    is gone it becomes [COMPLETED]; when the signal fails otherwise the
    exception leaves the call. A call that returns has set the end time,
    changed nothing else of the run, and left it in a terminal state, so
    that a second stop returns the same record and changes nothing. *)
Theorem stop_running (now : string) (kill : OS.kill_outcome) (c : t)
    (run_id : string) (r : SimulationRun.t) :
  _runs c !! run_id = Some r ->
  SimulationRun.status r = RUNNING ->
  match SimulationRun.pid r, kill with
  | Some _, OS.KillRaises exc => stop_simulation now kill c run_id = Py.Raise exc
  | pid, _ =>
      let status' :=
        match pid, kill with
        | Some _, OS.ProcessLookupError => COMPLETED
        | _, _ => STOPPED
        end in
      let r' := SimulationRun.set_end_time (Some now) (SimulationRun.set_status status' r) in
      let c' := with_runs (<[run_id := r']> (_runs c)) c in
      stop_simulation now kill c run_id = Py.Ok (r', c')
      /\ terminal (SimulationRun.status r') = true
      /\ forall now2 kill2, stop_simulation now2 kill2 c' run_id = Py.Ok (r', c')
  end.
Proof.
  intros Hrun Hst.
  assert (Hstop : forall r' : SimulationRun.t,
             SimulationRun.status r' <> RUNNING ->
             forall now2 kill2,
               stop_simulation now2 kill2 (with_runs (<[run_id := r']> (_runs c)) c) run_id
               = Py.Ok (r', with_runs (<[run_id := r']> (_runs c)) c)).
  { intros r' Hr' now2 kill2. apply stop_not_running; [ | done ].
    apply lookup_insert_eq. }
  assert (Hfirst : stop_simulation now kill c run_id
                   = match SimulationRun.pid r with
                     | Some _ =>
                         match kill with
                         | OS.Delivered =>
                             Py.Ok (ended STOPPED now r,
                                    with_runs (<[run_id := ended STOPPED now r]> (_runs c)) c)
                         | OS.ProcessLookupError =>
                             Py.Ok (ended COMPLETED now r,
                                    with_runs (<[run_id := ended COMPLETED now r]> (_runs c)) c)
                         | OS.KillRaises exc => Py.Raise exc
                         end
                     | None =>
                         Py.Ok (ended STOPPED now r,
                                with_runs (<[run_id := ended STOPPED now r]> (_runs c)) c)
                     end).
  { unfold stop_simulation, _get_run. rewrite Hrun; simpl.
    by rewrite bool_decide_eq_false_2 by (rewrite Hst; by intros []). }
  rewrite Hfirst.
  destruct (SimulationRun.pid r) as [ p | ]; [ destruct kill | ]; cbv zeta;
    try reflexivity;
    (split; [ reflexivity | ]); (split; [ reflexivity | ]); by apply Hstop.
Qed.

(** X16. The status query on a run that is [RUNNING]: without process id,
    or with a process that answers the probe, the run is returned as it is
    and stays [RUNNING]; when the process is gone the run becomes
    [COMPLETED] with the time of the query as end time and is otherwise
    unchanged; a probe that fails otherwise lets its exception out. *)
Theorem status_probe (now : string) (probe : OS.kill_outcome) (c : t)
    (run_id : string) (r : SimulationRun.t) :
  _runs c !! run_id = Some r ->
  SimulationRun.status r = RUNNING ->
  match SimulationRun.pid r, probe with
  | Some _, OS.KillRaises exc => get_run_status now probe c run_id = Py.Raise exc
  | Some _, OS.ProcessLookupError =>
      let r' := SimulationRun.set_end_time (Some now) (SimulationRun.set_status COMPLETED r) in
      get_run_status now probe c run_id
      = Py.Ok (r', with_runs (<[run_id := r']> (_runs c)) c)
  | _, _ => get_run_status now probe c run_id = Py.Ok (r, c)
  end.
Proof.
  intros Hrun Hst. unfold get_run_status, _get_run, _refresh_status.
  rewrite Hrun; simpl.
  rewrite bool_decide_eq_false_2 by (rewrite Hst; by intros []). simpl.
  assert (Hsame : with_runs (<[run_id := r]> (_runs c)) c = c).
  { unfold with_runs. rewrite (insert_id _ _ _ Hrun). by destruct c. }
  destruct (SimulationRun.pid r) as [ p | ]; simpl.
  - destruct probe; simpl; [ by rewrite Hsame | done | done ].
  - by rewrite Hsame.
Qed.

(** What the records of the registry satisfy. *)
Lemma new_run_shape (e : run_env) (c : t) (w : OS.world) (id : string)
    (extra : option (list string)) (dry_run : bool) (run : SimulationRun.t)
    (c' : t) (w' : OS.world) :
  run_simulation e c w id extra dry_run = Py.Ok (run, c', w') ->
  _runs c' = <[new_run_id e := run]> (_runs c)
  /\ SimulationRun.run_id run = new_run_id e
  /\ match SimulationRun.status run with
     | IDLE | PAUSED => False
     | RUNNING =>
         is_Some (SimulationRun.pid run) /\ is_Some (SimulationRun.start_time run)
         /\ SimulationRun.end_time run = None
     | COMPLETED | STOPPED => is_Some (SimulationRun.end_time run)
     | FAILED =>
         SimulationRun.pid run = None /\ SimulationRun.start_time run = None
         /\ SimulationRun.end_time run = None
     end.
Proof.
  unfold run_simulation.
  destruct (ScenarioManager.get_scenario (_sm c) id) as [ s | ] eqn:Hget;
    simpl; [ | discriminate ].
  destruct (ScenarioManager.save_scenario (_sm c) w id None)
    as [ [[file sm'] w0] | ]; simpl; [ | discriminate ].
  destruct (dry_run || bool_decide (_afsim_binary c = "")).
  { intros H. injection H as <- <- <-. simpl. eauto. }
  destruct (negb (OS.exists_ _ _)).
  { intros H. injection H as <- <- <-. simpl. eauto. }
  destruct (spawn e); intros H; injection H as <- <- <-; simpl; eauto 6.
Qed.

Lemma step_runs (o : op) (st : t * OS.world) :
  _runs (step o st).1 = _runs st.1
  \/ (exists e id extra dry_run run c' w',
        o = Run e id extra dry_run
        /\ run_simulation e st.1 st.2 id extra dry_run = Py.Ok (run, c', w')
        /\ _runs (step o st).1 = <[new_run_id e := run]> (_runs st.1))
  \/ (exists run_id r now status',
        (status' = STOPPED \/ status' = COMPLETED)
        /\ _runs st.1 !! run_id = Some r
        /\ SimulationRun.status r = RUNNING
        /\ _runs (step o st).1 = <[run_id := ended status' now r]> (_runs st.1)).
Proof.
  destruct st as [c w]. destruct o as [ e id extra dry | now kill rid | now probe rid ];
    simpl.
  - destruct (run_simulation e c w id extra dry) as [ [[run c'] w'] | ] eqn:Hrun;
      [ | by left ].
    right; left. exists e, id, extra, dry, run, c', w'.
    split; [ done | ]. split; [ done | ]. simpl.
    by apply new_run_shape in Hrun as [-> _].
  - unfold stop_simulation, _get_run.
    destruct (_runs c !! rid) as [ r | ] eqn:Hr; simpl; [ | by left ].
    case_bool_decide as Hst; [ by left | ].
    assert (Hrunning : SimulationRun.status r = RUNNING)
      by (by destruct (decide (SimulationRun.status r = RUNNING))).
    destruct (SimulationRun.pid r); [ destruct kill | ]; simpl;
      try (by left); right; right; exists rid, r, now; eauto 8.
  - unfold get_run_status, _get_run, _refresh_status.
    destruct (_runs c !! rid) as [ r | ] eqn:Hr; simpl; [ | by left ].
    destruct (bool_decide (SimulationRun.status r ≠ RUNNING)
              || bool_decide (SimulationRun.pid r = None)) eqn:Hcond; simpl.
    { left. by apply insert_id. }
    apply orb_false_iff in Hcond as [Hst _]. apply bool_decide_eq_false in Hst.
    assert (Hrunning : SimulationRun.status r = RUNNING)
      by (by destruct (decide (SimulationRun.status r = RUNNING))).
    destruct probe; simpl; [ left; by apply insert_id | | by left ].
    right; right. exists rid, r, now, COMPLETED. eauto.
Qed.


Lemma exec_keeps_terminal (ops : list op) (st : t * OS.world) (run_id : string)
    (r : SimulationRun.t) :
  _runs st.1 !! run_id = Some r ->
  terminal (SimulationRun.status r) = true ->
  fresh_ids ops st ->
  _runs (exec ops st).1 !! run_id = Some r.
Proof.
  revert st. induction ops as [ | o ops IH ]; intros st Hrun Hterm Hfresh;
    [ exact Hrun | ].
  destruct Hfresh as [Ho Hrest]. simpl. apply IH; [ | exact Hterm | exact Hrest ].
  by apply step_keeps_terminal.
Qed.

(** X18. Through any sequence of operations in which every new run gets an
    identifier not in use, a run of the registry changes at most once: it
    is later found as it was, or, if it was [RUNNING], with the status
    [STOPPED] or [COMPLETED] and an end time, and nothing else changed. *)
Theorem run_changes_once (ops : list op) (st : t * OS.world) (run_id : string)
    (r : SimulationRun.t) :
  _runs st.1 !! run_id = Some r ->
  fresh_ids ops st ->
  exists r',
    _runs (exec ops st).1 !! run_id = Some r'
    /\ (r' = r
        \/ (SimulationRun.status r = RUNNING
            /\ exists now status',
                 (status' = STOPPED \/ status' = COMPLETED)
                 /\ r' = SimulationRun.set_end_time (Some now)
                           (SimulationRun.set_status status' r))).
Proof.
  revert st. induction ops as [ | o ops IH ]; intros st Hrun Hfresh.
  { exists r. split; [ exact Hrun | by left ]. }
  destruct Hfresh as [Ho Hrest]. simpl.
  destruct (step_runs o st)
    as [ Hsame | [ (e & sid & extra & dry & run & c' & w' & -> & _ & Hins)
                 | (rid & r0 & now & status' & Hstatus & Hr0 & Hrunning & Hins) ] ].
  - apply IH; [ by rewrite Hsame | exact Hrest ].
  - apply IH; [ | exact Hrest ]. rewrite Hins.
    rewrite lookup_insert_ne; [ done | congruence ].
  - destruct (decide (rid = run_id)) as [ -> | Hne ].
    + rewrite Hrun in Hr0. injection Hr0 as <-.
      exists (ended status' now r). split.
      * apply exec_keeps_terminal; [ rewrite Hins; apply lookup_insert_eq | | exact Hrest ].
        by destruct Hstatus as [ -> | -> ].
      * right. split; [ exact Hrunning | ]. by exists now, status'.
    + apply IH; [ | exact Hrest ]. rewrite Hins. by rewrite lookup_insert_ne.
Qed.

(** X19. Runs are never forgotten: whatever operations follow, with
    whatever identifiers, an identifier of the registry stays in it, and
    [get_run] keeps finding a run under it. *)
Theorem runs_accumulate (ops : list op) (st : t * OS.world) (run_id : string) :
  is_Some (_runs st.1 !! run_id) ->
  is_Some (_runs (exec ops st).1 !! run_id)
  /\ exists r, get_run (exec ops st).1 run_id = Py.Ok r.
Proof.
  intros Hin.
  assert (Hlater : is_Some (_runs (exec ops st).1 !! run_id)).
  { revert st Hin. induction ops as [ | o ops IH ]; intros st Hin; [ done | ].
    simpl. apply IH.
    destruct (step_runs o st)
      as [ -> | [ (e & sid & extra & dry & run & c' & w' & _ & _ & ->)
                | (rid & r0 & now & status' & _ & _ & _ & ->) ] ];
      [ done | | ]; apply lookup_insert_is_Some'; by right. }
  split; [ exact Hlater | ].
  destruct Hlater as [r Hr]. exists r. unfold get_run, _get_run. by rewrite Hr.
Qed.

Lemma step_scenarios (o : op) (st : t * OS.world) (id : string) :
  Scenario.with_file_path None
    <$> (ScenarioManager._active_scenarios (_sm (step o st).1) !! id)
  = Scenario.with_file_path None
      <$> (ScenarioManager._active_scenarios (_sm st.1) !! id)
  /\ ScenarioManager._scenarios_dir (_sm (step o st).1)
     = ScenarioManager._scenarios_dir (_sm st.1)
  /\ _afsim_binary (step o st).1 = _afsim_binary st.1
  /\ _output_dir (step o st).1 = _output_dir st.1.
Proof.
  destruct st as [c w]. destruct o as [ e sid extra dry | now kill rid | now probe rid ];
    simpl.
  - destruct (ScenarioManager._active_scenarios (_sm c) !! sid) as [ s | ] eqn:Hreg.
    + destruct (run_simulation_registered e c w sid extra dry s Hreg)
        as (run & w' & ->). simpl.
      split; [ | done ].
      destruct (decide (sid = id)) as [ <- | Hne ].
      * rewrite lookup_insert_eq, Hreg. simpl. by destruct s.
      * by rewrite lookup_insert_ne.
    + unfold run_simulation, ScenarioManager.get_scenario, ScenarioManager._get.
      by rewrite Hreg.
  - destruct (stop_simulation now kill c rid) as [ [r' c'] | ] eqn:Hstop; [ | done ].
    simpl. unfold stop_simulation, _get_run in Hstop.
    destruct (_runs c !! rid) as [ r0 | ]; simpl in Hstop; [ | discriminate Hstop ].
    case_bool_decide; [ by injection Hstop as <- <- | ].
    destruct (SimulationRun.pid r0); [ destruct kill | ];
      try discriminate Hstop; by injection Hstop as <- <-.
  - unfold get_run_status, _get_run.
    destruct (_runs c !! rid) as [ r0 | ]; simpl; [ | done ].
    by destruct (_refresh_status now probe r0).
Qed.

(** X20. The controller leaves the scenarios alone: after any sequence of
    run, stop and status operations the scenario manager holds the same
    scenarios as before, equal to the earlier ones in everything but the
    recorded file path, and the configured binary and output directory are
    the same. *)
Theorem controller_keeps_scenarios (ops : list op) (st : t * OS.world) (id : string) :
  Scenario.with_file_path None
    <$> (ScenarioManager._active_scenarios (_sm (exec ops st).1) !! id)
  = Scenario.with_file_path None
      <$> (ScenarioManager._active_scenarios (_sm st.1) !! id)
  /\ ScenarioManager._scenarios_dir (_sm (exec ops st).1)
     = ScenarioManager._scenarios_dir (_sm st.1)
  /\ _afsim_binary (exec ops st).1 = _afsim_binary st.1
  /\ _output_dir (exec ops st).1 = _output_dir st.1.
Proof.
  revert st. induction ops as [ | o ops IH ]; intros st; [ done | ].
  simpl. destruct (IH (step o st)) as (H1 & H2 & H3 & H4).
  destruct (step_scenarios o st id) as (G1 & G2 & G3 & G4).
  rewrite H1, H2, H3, H4. done.
Qed.

End MoreRuns.

(** * Properties of the rendering, the backend and the readers *)

Section Rendering.
Context {B : Py.Builtins}.

(** X21. The rendered scenario text starts with the header line naming the
    scenario and ends with a line break; it does not depend on the
    identifier or on the recorded file path of the scenario. *)
Theorem to_afsim_text (s : Scenario.t) :
  (exists body : string,
      Scenario.to_afsim s
      = ("# Scenario: " ++ Scenario.name s ++ Py.nl ++ body ++ Py.nl)%string)
  /\ forall id fp,
       Scenario.to_afsim
         (Scenario.mk (Scenario.name s) id (Scenario.description s)
            (Scenario.duration_s s) (Scenario.time_step_s s) (Scenario.platforms s)
            (Scenario.parameters s) fp)
       = Scenario.to_afsim s.
Proof.
  split; [ | reflexivity ].
  unfold Scenario.to_afsim.
  set (ps := map _ (Scenario.parameters s)).
  set (sep := match Scenario.parameters s with [] => [] | _ :: _ => [ "" ] end).
  set (blocks := flat_map _ (Scenario.platforms s)).
  set (h1 := ("# Scenario: " ++ Scenario.name s)%string).
  set (h2 := ("# " ++ Scenario.description s)%string).
  set (h4 := ("simulation_duration " ++ _)%string).
  set (h5 := ("time_step " ++ _)%string).
  assert (Hblocks : last blocks = None \/ last blocks = Some "").
  { subst blocks. induction (Scenario.platforms s) as [ | p l IH ]; [ by left | ].
    right. simpl. rewrite last_cons.
    by destruct IH as [ -> | -> ]. }
  set (rest := ([ h2; ""; h4; h5; "" ] ++ ps ++ sep ++ blocks)%list).
  assert (Hsep : last (ps ++ sep) = None \/ last (ps ++ sep) = Some "").
  { subst ps sep. destruct (Scenario.parameters s); [ by left | right ].
    apply last_snoc. }
  assert (Hrest : last rest = Some "").
  { subst rest. rewrite (app_assoc ps), last_app, last_app.
    destruct Hblocks as [ -> | -> ]; [ | done ].
    by destruct Hsep as [ -> | -> ]. }
  apply last_Some in Hrest as [front Hrest].
  assert (Hfront : front <> []).
  { intros ->. apply (f_equal length) in Hrest. subst rest.
    rewrite !length_app in Hrest. simpl in Hrest. lia. }
  change (Py.join Py.nl ([ h1; h2; ""; h4; h5; "" ] ++ ps ++ sep ++ blocks))
    with (h1 ++ Py.nl ++ Py.join Py.nl rest)%string.
  rewrite Hrest, join_snoc by done.
  exists (Py.join Py.nl front). subst h1. by rewrite !string_app_assoc.
Qed.

End Rendering.

Section Backend.
Context {B : Py.Builtins} {T : Py.TextBuiltins}.

Import AfsimBackend.

(** X22. How a tool's binary is resolved. A path set with
    [set_binary_path] is what [get_binary_path] returns for every spelling
    of the tool that lower-cases to the same key, whatever the installation
    directory and the search path hold, and no other tool is affected.
    Without such a path, the binary under [bin] of the installation
    directory is returned when it exists; otherwise the answer of the
    search path is, an empty answer counting as none. *)
Theorem binary_path_resolution (which : string -> option string) (w : OS.world)
    (b : t) (tool : string) :
  (forall path tool',
      Py.str_lower tool' = Py.str_lower tool ->
      get_binary_path which w (set_binary_path tool path b) tool' = Some path)
  /\ (forall path other,
        Py.str_lower other <> Py.str_lower tool ->
        get_binary_path which w (set_binary_path tool path b) other
        = get_binary_path which w b other)
  /\ (_binary_paths b !! Py.str_lower tool = None ->
      let canonical :=
        default (Py.str_lower tool) (table_get (Py.str_lower tool) AFSIM_TOOLS) in
      let on_path :=
        match which canonical with
        | Some "" | None => None
        | Some found => Some found
        end in
      (forall home,
          _afsim_home b = Some home ->
          let candidate := Py.path_join (Py.path_join home "bin") canonical in
          get_binary_path which w b tool
          = if OS.exists_ w candidate then Some candidate else on_path)
      /\ (_afsim_home b = None -> get_binary_path which w b tool = on_path)).
Proof.
  split; [ | split ].
  - intros path tool' Hkey. unfold get_binary_path, set_binary_path; simpl.
    by rewrite Hkey, lookup_insert_eq.
  - intros path other Hne. unfold get_binary_path, set_binary_path; simpl.
    by rewrite lookup_insert_ne.
  - intros Hnone canonical on_path.
    assert (Hpath : match which canonical with
                    | Some found => if bool_decide (found = "") then None else Some found
                    | None => None
                    end = on_path).
    { subst on_path. destruct (which canonical) as [ [ | a f ] | ]; done. }
    split.
    + intros home Hhome candidate. unfold get_binary_path.
      rewrite Hnone, Hhome. fold canonical. by rewrite Hpath.
    + intros Hhome. unfold get_binary_path. rewrite Hnone, Hhome.
      fold canonical. by rewrite Hpath.
Qed.

Lemma last_chars_spec (n : nat) (s : string) :
  String.length (Py.last_chars n s) = Nat.min n (String.length s)
  /\ exists front : string, s = (front ++ Py.last_chars n s)%string.
Proof.
  assert (Hlen : forall l, String.length (string_of_list_ascii l) = length l).
  { induction l as [ | a l IH ]; simpl; [ done | by rewrite IH ]. }
  assert (Hlen' : forall x, length (list_ascii_of_string x) = String.length x).
  { induction x as [ | a x IH ]; simpl; [ done | by rewrite IH ]. }
  assert (Happ : forall l1 l2,
             string_of_list_ascii (l1 ++ l2)
             = (string_of_list_ascii l1 ++ string_of_list_ascii l2)%string).
  { induction l1 as [ | a l1 IH ]; intros l2; [ done | ].
    change (String a (string_of_list_ascii (l1 ++ l2))
            = String a (string_of_list_ascii l1 ++ string_of_list_ascii l2)%string).
    by rewrite IH. }
  unfold Py.last_chars. split.
  - rewrite Hlen, length_drop, Hlen'. lia.
  - exists (string_of_list_ascii
              (take (String.length s - n) (list_ascii_of_string s))).
    by rewrite <- Happ, take_drop, string_of_list_ascii_of_string.
Qed.

(** X23. A batch run of [warlock] whose binary resolves and whose process
    finishes reports success exactly when the return code is zero; the
    command is the binary, the scenario file unless its name is empty, then
    [-o], the output directory and the extra arguments; the reported output
    is the end of what the process wrote, cut to 4000 characters, and the
    reported error output the end cut to 2000. When the binary does not
    resolve, nothing is run and the failure names the tool. *)
Theorem run_warlock_result (which : string -> option string) (os : process)
    (w : OS.world) (b : t) (scenario_file output_dir : string)
    (extra : option (list string)) :
  (get_binary_path which w b "warlock" = None ->
   run_warlock which os w b scenario_file output_dir extra
   = Failure "AFSIM tool 'warlock' not found. Set AFSIM_HOME or use set_binary_path()."
       "warlock")
  /\ (forall binary returncode stdout stderr,
        get_binary_path which w b "warlock" = Some binary ->
        binary <> "" ->
        let cmd :=
          (binary :: (if bool_decide (scenario_file = "") then [] else [ scenario_file ])
           ++ [ "-o"; output_dir ] ++ default [] extra)%list in
        run os cmd = Finished returncode stdout stderr ->
        exists out err,
          run_warlock which os w b scenario_file output_dir extra
          = Ran (bool_decide (returncode = 0%Z)) "warlock" returncode out err cmd
          /\ String.length out = Nat.min 4000 (String.length stdout)
          /\ String.length err = Nat.min 2000 (String.length stderr)
          /\ (exists front, stdout = (front ++ out)%string)
          /\ (exists front, stderr = (front ++ err)%string)).
Proof.
  split.
  - intros Hnone. unfold run_warlock, _run_tool. by rewrite Hnone.
  - intros binary returncode stdout stderr Hbin Hne cmd Hrun.
    unfold run_warlock, _run_tool. rewrite Hbin.
    destruct binary as [ | a binary ]; [ done | ].
    assert (Hcmd : ([ String a binary ]
                    ++ match Some scenario_file with
                       | None | Some EmptyString => []
                       | Some arg => [ arg ]
                       end
                    ++ [ "-o"; output_dir ] ++ default [] extra)%list = cmd).
    { subst cmd. destruct scenario_file; [ done | ].
      by rewrite bool_decide_eq_false_2. }
    rewrite Hcmd, Hrun.
    exists (Py.last_chars 4000 stdout), (Py.last_chars 2000 stderr).
    split.
    { f_equal. destruct (Z.eqb_spec returncode 0) as [ -> | Hrc ].
      - by rewrite bool_decide_eq_true_2.
      - by rewrite bool_decide_eq_false_2. }
    destruct (last_chars_spec 4000 stdout) as [H1 H2].
    destruct (last_chars_spec 2000 stderr) as [H3 H4]. done.
Qed.

End Backend.

Section Keywords.
Context {T : Py.TextBuiltins}.

Import NLGenerator.

Lemma starts_with_contains (sub s : string) :
  Py.starts_with sub s = true -> Py.contains sub s = true.
Proof. intros H. destruct s; simpl; by rewrite H. Qed.

Lemma contains_cons (sub : string) (c : ascii) (s : string) :
  Py.contains sub s = true -> Py.contains sub (String c s) = true.
Proof. intros H. simpl. rewrite H. apply orb_true_r. Qed.

Lemma starts_with_app (a b s : string) :
  Py.starts_with (a ++ b) s = true -> Py.contains b s = true.
Proof.
  revert s. induction a as [ | x a IH ]; intros s.
  - apply starts_with_contains.
  - change (Py.starts_with (String x (a ++ b)) s = true -> Py.contains b s = true).
    destruct s as [ | y s ]; simpl; [ done | ].
    intros H. apply andb_true_iff in H as [_ H].
    apply IH in H. rewrite H. apply orb_true_r.
Qed.

(** A text that contains a word contains the ends of the word. *)
Lemma contains_app (a b s : string) :
  Py.contains (a ++ b) s = true -> Py.contains b s = true.
Proof.
  induction s as [ | c s IH ].
  - simpl. rewrite orb_false_r. apply starts_with_app.
  - intros H.
    change (Py.starts_with (a ++ b) (String c s) || Py.contains (a ++ b) s = true) in H.
    apply orb_true_iff in H as [ H | H ].
    + by apply starts_with_app in H.
    + by apply contains_cons, IH.
Qed.

(** X24. The mover keyword [subsurface] is never the one that decides: a
    text whose lower-case form contains it also contains [surface], which
    stands earlier in the table, so [_find_keyword] answers with a fixed,
    route, air, ground or surface mover, and [_infer_mover] does not infer a
    subsurface mover from a prompt that says [subsurface]. *)
Theorem subsurface_is_shadowed (text : string) :
  Py.contains "subsurface" (Py.str_lower text) = true ->
  (exists mover,
      _find_keyword text _MOVER_KEYWORDS = Some mover
      /\ mover ∈ [ "wsf_fixed_mover"; "wsf_route_mover"; "wsf_air_mover";
                   "wsf_ground_mover"; "wsf_surface_mover" ])
  /\ forall entity_word prompt,
       text = Py.str_lower (entity_word ++ " " ++ prompt) ->
       _infer_mover entity_word prompt <> "wsf_subsurface_mover".
Proof.
  intros Hsub.
  assert (Hsurface : Py.contains "surface" (Py.str_lower text) = true)
    by apply (contains_app "sub" "surface" _ Hsub).
  assert (Hfind : exists mover,
             _find_keyword text _MOVER_KEYWORDS = Some mover
             /\ mover ∈ [ "wsf_fixed_mover"; "wsf_route_mover"; "wsf_air_mover";
                          "wsf_ground_mover"; "wsf_surface_mover" ]).
  { unfold _find_keyword, _MOVER_KEYWORDS, first_keyword.
    repeat (match goal with
            | |- context [ if Py.contains ?kw ?l then _ else _ ] =>
                destruct (Py.contains kw l) eqn:?
            end;
            try (eexists; split; [ reflexivity | ];
                 repeat (first [ apply list_elem_of_here | apply list_elem_of_further ]);
                 fail));
      congruence. }
  split; [ exact Hfind | ].
  intros entity_word prompt ->. unfold _infer_mover.
  destruct Hfind as (mover & -> & Hin).
  intros ->. apply list_elem_of_In in Hin. simpl in Hin.
  destruct Hin as [ H | [ H | [ H | [ H | [ H | [] ] ] ] ] ]; discriminate H.
Qed.

End Keywords.

Section Readers.
Context {B : Py.Builtins} {T : Py.TextBuiltins}.

Import ResultsHandler.

(** X25. Reading an event or archive file that is on the disk returns the
    first lines of its text and their number: at most [max_lines] of them
    when [max_lines] is not negative, and all but the last [-max_lines]
    when it is negative; both readers return the same. A path that is not
    on the disk raises [FileNotFoundError]. *)
Theorem query_lines (w : OS.world) (path : string) (max_lines : Z) :
  (OS.exists_ w path = false ->
   query_evt w path max_lines
   = Py.Raise (Py.FileNotFoundError ("Result file not found: " ++ path))
   /\ query_aer w path max_lines = query_evt w path max_lines)
  /\ forall f,
       OS.files w !! Py.path_str path = Some f ->
       let all := Py.splitlines (ScenarioManager.read_text f) in
       exists res,
         query_evt w path max_lines = Py.Ok res
         /\ query_aer w path max_lines = Py.Ok res
         /\ ResultsHandler.file_path res = Py.path_str path
         /\ line_count res = length (lines res)
         /\ lines res = take (line_count res) all
         /\ line_count res
            = if (0 <=? max_lines)%Z then Nat.min (Z.to_nat max_lines) (length all)
              else length all - Z.to_nat (- max_lines).
Proof.
  split.
  - intros Hno. unfold query_evt, query_aer. by rewrite Hno.
  - intros f Hfile all. unfold query_evt, query_aer, OS.exists_.
    rewrite Hfile, bool_decide_eq_true_2 by done. simpl. fold all.
    eexists. split; [ reflexivity | ]. split; [ reflexivity | ]. simpl.
    split; [ reflexivity | ]. split; [ reflexivity | ].
    assert (Htake : forall n, take n all = take (Nat.min n (length all)) all).
    { intros n. destruct (Nat.le_gt_cases n (length all)) as [ Hle | Hgt ].
      - by rewrite Nat.min_l.
      - rewrite Nat.min_r by lia. by rewrite !take_ge by lia. }
    unfold Py.slice_to. destruct (0 <=? max_lines)%Z; rewrite length_take.
    + split; [ apply Htake | done ].
    + split; [ apply Htake | lia ].
Qed.

End Readers.

(** * The further theorems at concrete inputs *)

Lemma create_get_delete_witness :
  exists sm',
    ScenarioManager.create_scenario "id-9" bad_manager "beta" "" (Py.PInt 60) (Py.PInt 1)
    = Py.Ok (Scenario.mk "beta" "id-9" "" (Py.PInt 60) (Py.PInt 1) [] [] None, sm')
    /\ ScenarioManager.delete_scenario sm' "id-9" = (true, bad_manager).
Proof.
  destruct (create_get_delete "id-9" "beta" "" (Py.PInt 60) (Py.PInt 1) bad_manager)
    as (sm' & Hcreate & _ & _ & Hdelete & _).
  - discriminate.
  - reflexivity.
  - by exists sm'.
Defined.

Lemma save_scenario_twice_witness :
  exists path sm1 w1,
    ScenarioManager.save_scenario (B := example_builtins) bad_manager (OS.mk ∅ ∅ [])
      "id-1" None = Py.Ok (path, sm1, w1)
    /\ ScenarioManager.save_scenario (B := example_builtins) sm1 w1 "id-1" None
       = Py.Ok (path, sm1, w1).
Proof.
  apply (save_scenario_twice (B := example_builtins) bad_manager (OS.mk ∅ ∅ []) "id-1"
           None bad_scenario).
  reflexivity.
Defined.

Lemma save_same_name_overwrites_witness :
  exists path sm1 w1 sm2 w2,
    ScenarioManager.save_scenario (B := example_builtins) twin_manager (OS.mk ∅ ∅ [])
      "id-1" None = Py.Ok (path, sm1, w1)
    /\ ScenarioManager.save_scenario (B := example_builtins) sm1 w1 "id-3" None
       = Py.Ok (path, sm2, w2)
    /\ OS.files w1 !! path
       = Some (OS.Text (Scenario.to_afsim (B := example_builtins) bad_scenario))
    /\ OS.files w2 !! path
       = Some (OS.Text (Scenario.to_afsim (B := example_builtins) twin_scenario)).
Proof.
  apply (save_same_name_overwrites (B := example_builtins) twin_manager (OS.mk ∅ ∅ [])
           "id-1" "id-3" bad_scenario twin_scenario).
  - reflexivity.
  - reflexivity.
  - discriminate.
  - reflexivity.
Defined.


Lemma decode_defaults_witness :
  ScenarioManager._scenario_from_dict
    (Py.JObj [ ("comment", Py.JNull); ("name", Py.JStr "imported") ])
  = Py.Ok (Scenario.mk "imported" "" "" ScenarioManager.default_duration_s
             ScenarioManager.default_time_step_s [] [] None).
Proof.
  apply (decode_defaults [ ("comment", Py.JNull); ("name", Py.JStr "imported") ]
           "imported").
  - reflexivity.
  - repeat split.
Defined.

Lemma create_platform_round_trip_witness :
  exists sm1 info,
    EntityManager.create_platform craft_manager "id-4" "escort" "wsf_air_vehicle"
      (Py.PInt 1) (Py.PInt 2) (Py.PInt 3) None = Py.Ok (info, sm1)
    /\ EntityManager.get_platform sm1 "id-4" "escort" = Py.Ok info
    /\ EntityManager.delete_platform sm1 "id-4" "escort" = Py.Ok (true, craft_manager).
Proof.
  destruct (create_platform_round_trip craft_manager "id-4" "escort" "wsf_air_vehicle"
              (Py.PInt 1) (Py.PInt 2) (Py.PInt 3) None craft_scenario)
    as (sm1 & Hcreate & Hget & _ & Hdelete).
  - reflexivity.
  - simpl. intros Hin. apply list_elem_of_In in Hin. simpl in Hin.
    destruct Hin as [ H | [] ]; discriminate H.
  - by eexists sm1, _.
Defined.

Lemma exec_well_formed_witness :
  exists s,
    ScenarioManager._active_scenarios
      (EntityManager.exec
         [ EntityManager.CreateScenario "id-7" "gamma" "" (Py.PInt 60) (Py.PInt 1);
           EntityManager.CreatePlatform "id-7" "p" "wsf_platform"
             (Py.PInt 0) (Py.PInt 0) (Py.PInt 0) None;
           EntityManager.CreatePlatform "id-7" "p" "wsf_platform"
             (Py.PInt 0) (Py.PInt 0) (Py.PInt 0) None;
           EntityManager.AddSensor "id-7" "p" "wsf_radar_sensor" None None ]
         (ScenarioManager.mk "scenarios" ∅)) !! "id-7" = Some s
    /\ length (Scenario.platforms s) = 1
    /\ NoDup (map Platform.name (Scenario.platforms s)).
Proof.
  eexists. split; [ vm_compute; reflexivity | ].
  split; [ reflexivity | ].
  eapply (exec_well_formed (B := example_builtins)
            [ EntityManager.CreateScenario "id-7" "gamma" "" (Py.PInt 60) (Py.PInt 1);
              EntityManager.CreatePlatform "id-7" "p" "wsf_platform"
                (Py.PInt 0) (Py.PInt 0) (Py.PInt 0) None;
              EntityManager.CreatePlatform "id-7" "p" "wsf_platform"
                (Py.PInt 0) (Py.PInt 0) (Py.PInt 0) None;
              EntityManager.AddSensor "id-7" "p" "wsf_radar_sensor" None None ]
            "scenarios" "id-7").
  vm_compute. reflexivity.
Defined.


Lemma add_component_appends_witness :
  exists sm',
    EntityManager.add_sensor craft_manager "id-4" "craft" "wsf_radar_sensor" None None
    = Py.Ok (EntityManager.mk_component_info "craft_sensor" "wsf_radar_sensor" [], sm')
    /\ EntityManager.list_components sm' "id-4" "craft"
       = Py.Ok [ EntityManager.mk_component_info "craft_mover" "wsf_air_mover" [];
                 EntityManager.mk_component_info "craft_sensor" "wsf_radar_sensor" [] ].
Proof.
  destruct (add_component_appends craft_manager "id-4" "craft" craft_scenario craft
              "wsf_radar_sensor" None None eq_refl eq_refl)
    as (_ & (sm' & Hadd & Hlist & _) & _).
  by exists sm'.
Defined.

Lemma add_then_remove_witness :
  exists info sm',
    EntityManager.add_weapon craft_manager "id-4" "craft" "wsf_missile" (Some "aam") None
    = Py.Ok (info, sm')
    /\ EntityManager.remove_component sm' "id-4" "craft" (EntityManager.cinfo_name info)
       = Py.Ok (true, craft_manager).
Proof.
  destruct (add_then_remove craft_manager "id-4" "craft" craft_scenario craft
              "wsf_missile" (Some "aam") None eq_refl eq_refl)
    as (_ & _ & Hweapon).
  apply Hweapon. simpl. intros Hin. apply list_elem_of_In in Hin. simpl in Hin.
  destruct Hin as [ H | [] ]; discriminate H.
Defined.

Lemma spawn_records_process_witness :
  exists c' w',
    SimulationController.run_simulation (B := example_builtins) first_env
      live_controller live_world "id-1" (Some [ "-v" ]) false
    = Py.Ok (running_run, c', w')
    /\ OS.spawned w'
       = [ OS.mk_launch [ "/opt/afsim/bin/mission"; "scenarios/alpha.afsim"; "-v" ]
             "out/alpha" "out/alpha/simulation.log" ].
Proof.
  destruct (spawn_records_process (B := example_builtins) first_env live_controller
              live_world "id-1" (Some [ "-v" ]) bad_scenario 4242)
    as (run & c' & w' & Hrun & _ & _ & _ & _ & _ & _ & _ & _ & Hspawned & _).
  - reflexivity.
  - discriminate.
  - reflexivity.
  - reflexivity.
  - exists c', w'.
    assert (Hsame : run = running_run).
    { vm_compute in Hrun. by injection Hrun as <- _ _. }
    rewrite Hsame in *. split; [ exact Hrun | exact Hspawned ].
Defined.

Lemma stop_running_witness :
  SimulationController._runs after_spawn.1 !! "run-1" = Some running_run
  /\ exists r' c',
      SimulationController.stop_simulation "t9" OS.Delivered after_spawn.1 "run-1"
      = Py.Ok (r', c')
      /\ SimulationRun.status r' = SimulationStatus.STOPPED
      /\ SimulationRun.end_time r' = Some "t9".
Proof.
  assert (Hrun : SimulationController._runs after_spawn.1 !! "run-1" = Some running_run)
    by (vm_compute; reflexivity).
  split; [ exact Hrun | ].
  pose proof (stop_running "t9" OS.Delivered after_spawn.1 "run-1" running_run
                Hrun eq_refl) as H.
  simpl in H. destruct H as (Hstop & _ & _).
  eexists _, _. split; [ exact Hstop | ]. by split.
Defined.

Lemma status_probe_witness :
  exists r' c',
    SimulationController.get_run_status "t9" OS.ProcessLookupError after_spawn.1 "run-1"
    = Py.Ok (r', c')
    /\ SimulationRun.status r' = SimulationStatus.COMPLETED
    /\ SimulationRun.end_time r' = Some "t9".
Proof.
  assert (Hrun : SimulationController._runs after_spawn.1 !! "run-1" = Some running_run)
    by (vm_compute; reflexivity).
  pose proof (status_probe "t9" OS.ProcessLookupError after_spawn.1 "run-1" running_run
                Hrun eq_refl) as H.
  simpl in H. eexists _, _. split; [ exact H | ]. by split.
Defined.


Lemma run_changes_once_witness :
  exists r',
    SimulationController._runs
      (SimulationController.exec (B := example_builtins)
         [ SimulationController.Run second_env "id-1" None true;
           SimulationController.Stop "t5" OS.Delivered "run-1";
           SimulationController.Status "t6" OS.ProcessLookupError "run-1" ]
         after_spawn).1 !! "run-1" = Some r'
    /\ (r' = running_run
        \/ (SimulationRun.status running_run = SimulationStatus.RUNNING
            /\ exists now status',
                 (status' = SimulationStatus.STOPPED
                  \/ status' = SimulationStatus.COMPLETED)
                 /\ r' = SimulationRun.set_end_time (Some now)
                           (SimulationRun.set_status status' running_run))).
Proof.
  apply (run_changes_once (B := example_builtins)
           [ SimulationController.Run second_env "id-1" None true;
             SimulationController.Stop "t5" OS.Delivered "run-1";
             SimulationController.Status "t6" OS.ProcessLookupError "run-1" ]
           after_spawn "run-1" running_run).
  - vm_compute. reflexivity.
  - vm_compute. repeat split.
Defined.

Lemma runs_accumulate_witness :
  is_Some
    (SimulationController._runs
       (SimulationController.exec (B := example_builtins) example_ops after_spawn).1
     !! "run-1").
Proof.
  apply (runs_accumulate (B := example_builtins) example_ops after_spawn "run-1").
  exists running_run. vm_compute. reflexivity.
Defined.

Lemma subsurface_is_shadowed_witness :
  NLGenerator._infer_mover (T := example_text_builtins) "submarine"
    "A submarine on a Subsurface patrol"
  <> "wsf_subsurface_mover"
  /\ NLGenerator._infer_mover (T := example_text_builtins) "submarine"
       "A submarine on a Subsurface patrol"
     = "wsf_route_mover".
Proof.
  split; [ | vm_compute; reflexivity ].
  destruct (subsurface_is_shadowed (T := example_text_builtins)
              (@Py.str_lower example_text_builtins
                 ("submarine" ++ " " ++ "A submarine on a Subsurface patrol")))
    as [_ Hinfer].
  - vm_compute. reflexivity.
  - by apply Hinfer.
Defined.
